(** * Scheduler benchmark harness: completion tracking and trial driver

    A shallow embedding of [dev/airflow_perf/scheduler_dag_execution_timing.py]:
    the [ShortCircuitExecutorMixin] (its [reset] and [change_state]), the
    database helpers [reset_dag], [pause_all_dags], [create_dag_runs], and the
    control flow of [main] (validation of the end date, the repeated trials).

    Python objects are records, dictionaries are finite maps, the database
    session is a record of tables, exceptions are an explicit outcome. *)

From stdpp Require Import base gmap list strings.

Open Scope Z_scope.

(** ** Airflow types the script relies on *)

(** [airflow.utils.state.TaskInstanceState]; the script only compares with
    [SUCCESS]. *)
Inductive TaskInstanceState :=
  | REMOVED | SCHEDULED | QUEUED | RUNNING | SUCCESS | RESTARTING
  | FAILED | UP_FOR_RETRY | UP_FOR_RESCHEDULE | UPSTREAM_FAILED
  | SKIPPED | DEFERRED.

#[global] Instance TaskInstanceState_eq_dec : EqDecision TaskInstanceState.
Proof. solve_decision. Defined.

(** Timestamps (logical dates, end dates) are integers. *)
Abbreviation datetime := Z (only parsing).

(** The executor key, unpacked in [change_state] as
    [dag_id, _, logical_date, __ = key]. *)
Definition TaskInstanceKey : Type := string * string * datetime * Z.

(** Rows of the three tables the script touches. *)
Record DagModel := mkDagModel {
  dm_dag_id : string;
  is_paused : bool
}.

Record DagRun := mkDagRun {
  dr_dag_id : string;
  dr_run_id : string;
  dr_logical_date : datetime
}.

Record TaskInstance := mkTaskInstance {
  ti_dag_id : string;
  ti_run_id : string;
  ti_task_id : string;
  state : option TaskInstanceState
}.

#[global] Instance DagModel_eq_dec : EqDecision DagModel.
Proof. solve_decision. Defined.
#[global] Instance DagRun_eq_dec : EqDecision DagRun.
Proof. solve_decision. Defined.
#[global] Instance TaskInstance_eq_dec : EqDecision TaskInstance.
Proof. solve_decision. Defined.

(** The database as seen through a session: one list of rows per table. *)
Record Session := mkSession {
  dag_model_rows : list DagModel;
  dag_run_rows : list DagRun;
  task_instance_rows : list TaskInstance
}.

(** Modelled from the spec: [airflow.models.DagRun.find] is not part of the
    script; the persistence contract is "lookup of a run by (workflow id,
    logical timestamp)".  It returns the list of matching rows. *)
Definition DagRun_find (session : Session) (dag_id : string)
    (logical_date : datetime) : list DagRun :=
  filter (λ r, dr_dag_id r = dag_id ∧ dr_logical_date r = logical_date)
         (dag_run_rows session).

(** Modelled from the spec: [DagRun.get_task_instances] is not part of the
    script; the persistence contract is "enumeration of a run's task
    instances and their states", read from the database at the time of the
    call. *)
Definition get_task_instances (session : Session) (run : DagRun)
    : list TaskInstance :=
  filter (λ t, ti_dag_id t = dr_dag_id run ∧ ti_run_id t = dr_run_id run)
         (task_instance_rows session).

(** ** Exceptions and outcomes *)

Inductive exn :=
  | IndexError
  | AttributeError
  | UnboundLocalError
  | SystemExit (message : string)
  | OtherError (message : string).

Inductive outcome :=
  | Returned
  | Raised (e : exn).

(** ** ShortCircuitExecutorMixin *)

(** [argparse.Namespace(waiting_for=..., runs={})]. *)
Record Namespace := mkNamespace {
  waiting_for : Z;
  runs : gmap Z DagRun
}.

#[global] Instance Namespace_eq_dec : EqDecision Namespace.
Proof. solve_decision. Defined.

(** The only field of the job runner the script writes. *)
Record JobRunner := mkJobRunner {
  num_runs : Z
}.

(** The executor object: the mixin's attributes, the [job_runner] class
    attribute (initially [None]) and the event buffer of the base executor. *)
Record Executor := mkExecutor {
  num_runs_per_dag : Z;
  dags_to_watch : gmap string Namespace;
  job_runner : option JobRunner;
  event_buffer : list (TaskInstanceKey * TaskInstanceState)
}.

Definition set_dags_to_watch (w : gmap string Namespace) (self : Executor)
    : Executor :=
  {| num_runs_per_dag := num_runs_per_dag self;
     dags_to_watch := w;
     job_runner := job_runner self;
     event_buffer := event_buffer self |}.

Definition set_job_runner (jr : option JobRunner) (self : Executor)
    : Executor :=
  {| num_runs_per_dag := num_runs_per_dag self;
     dags_to_watch := dags_to_watch self;
     job_runner := jr;
     event_buffer := event_buffer self |}.

(** [reset]: a dict comprehension over [dag_ids_to_watch]; a repeated id
    overwrites its earlier entry. *)
Definition reset (dag_ids_to_watch : list string) (self : Executor)
    : Executor :=
  set_dags_to_watch
    (foldl (λ acc dag_id,
              <[dag_id := {| waiting_for := num_runs_per_dag self;
                             runs := ∅ |}]> acc)
           ∅ dag_ids_to_watch)
    self.

(** [__init__]: store the run count, then [reset]. *)
Definition Executor_init (dag_ids_to_watch : list string) (num_runs : Z)
    : Executor :=
  reset dag_ids_to_watch
    {| num_runs_per_dag := num_runs;
       dags_to_watch := ∅;
       job_runner := None;
       event_buffer := [] |}.

(** Modelled from the spec: the base executor's [change_state] is not part
    of the script; "every state-change notification is first forwarded to
    the base executor's own handling".  It records the notification. *)
Definition super_change_state (key : TaskInstanceKey)
    (st : TaskInstanceState) (self : Executor) : Executor :=
  {| num_runs_per_dag := num_runs_per_dag self;
     dags_to_watch := dags_to_watch self;
     job_runner := job_runner self;
     event_buffer := event_buffer self ++ [(key, st)] |}.

(** The two warnings [change_state] logs. *)
Inductive LogRecord :=
  | STOPPING_SCHEDULER
  | WAITING_ON (n : Z).

#[global] Instance LogRecord_eq_dec : EqDecision LogRecord.
Proof. solve_decision. Defined.

(** [sum(map(attrgetter("waiting_for"), self.dags_to_watch.values()))]. *)
Definition total_waiting (w : gmap string Namespace) : Z :=
  map_fold (λ _ ns acc, waiting_for ns + acc) 0 w.

(** [all(t.state == TaskInstanceState.SUCCESS for t in tis)]. *)
Definition all_success (tis : list TaskInstance) : bool :=
  forallb (λ t, bool_decide (state t = Some SUCCESS)) tis.

(** Lines 79-84: the run comes from the cache, or is looked up and cached.
    [None] stands for the [IndexError] of [find(...)[0]] on an empty list. *)
Definition cached_or_find (session : Session) (dag_id : string)
    (logical_date : datetime) (ns : Namespace)
    : option (DagRun * Namespace) :=
  match runs ns !! logical_date with
  | Some run => Some (run, ns)
  | None =>
      match DagRun_find session dag_id logical_date with
      | [] => None
      | run :: _ =>
          Some (run, {| waiting_for := waiting_for ns;
                        runs := <[logical_date := run]> (runs ns) |})
      end
  end.

(** [change_state]: the outcome, the executor afterwards, and the warnings
    logged by this call.  A run object is always truthy, so [if run and
    all(...)] tests [all(...)] alone. *)
Definition change_state (session : Session) (key : TaskInstanceKey)
    (st : TaskInstanceState) (self : Executor)
    : outcome * Executor * list LogRecord :=
  let self := super_change_state key st self in
  let '(dag_id, _, logical_date, _) := key in
  match dags_to_watch self !! dag_id with
  | None => (Returned, self, [])
  | Some ns =>
      match cached_or_find session dag_id logical_date ns with
      | None => (Raised IndexError, self, [])
      | Some (run, ns) =>
          if all_success (get_task_instances session run) then
            let ns := {| waiting_for := waiting_for ns - 1;
                         runs := delete logical_date (runs ns) |} in
            let w :=
              if bool_decide (waiting_for ns = 0)
              then delete dag_id (dags_to_watch self)
              else <[dag_id := ns]> (dags_to_watch self) in
            let self := set_dags_to_watch w self in
            if bool_decide (w = ∅) then
              match job_runner self with
              | None => (Raised AttributeError, self, [STOPPING_SCHEDULER])
              | Some _ =>
                  (Returned,
                   set_job_runner (Some {| num_runs := 1 |}) self,
                   [STOPPING_SCHEDULER])
              end
            else (Returned, self, [WAITING_ON (total_waiting w)])
          else
            let w := <[dag_id := ns]> (dags_to_watch self) in
            (Returned, set_dags_to_watch w self,
             [WAITING_ON (total_waiting w)])
      end
  end.

(** ** Sequences of notifications *)

(** One notification as the executor receives it: the database as it is at
    the time of the call, the key and the new task state. *)
Record Event := mkEvent {
  ev_session : Session;
  ev_key : TaskInstanceKey;
  ev_state : TaskInstanceState
}.

(** What one call of [change_state] did. *)
Record Step := mkStep {
  pre : Executor;
  event : Event;
  result : outcome;
  post : Executor;
  logged : list LogRecord
}.

Definition do_step (ev : Event) (self : Executor) : Step :=
  let '(res, self', out) :=
    change_state (ev_session ev) (ev_key ev) (ev_state ev) self in
  {| pre := self; event := ev; result := res; post := self'; logged := out |}.

(** The calls made for a sequence of notifications; an exception
    propagates to the scheduling loop, so no later call is made. *)
Fixpoint exec_trace (evs : list Event) (self : Executor) : list Step :=
  match evs with
  | [] => []
  | ev :: evs' =>
      let s := do_step ev self in
      s :: match result s with
           | Returned => exec_trace evs' (post s)
           | Raised _ => []
           end
  end.

(** The executor after the calls of a trace that started from [self]. *)
Definition final_state (self : Executor) (tr : list Step) : Executor :=
  from_option post self (last tr).

(** The stop instruction was issued in this call. *)
Definition stop_issued (s : Step) : Prop :=
  STOPPING_SCHEDULER ∈ logged s.

#[global] Instance stop_issued_dec s : Decision (stop_issued s).
Proof. unfold stop_issued. apply _. Defined.

Definition key_dag_id (key : TaskInstanceKey) : string :=
  let '(dag_id, _, _, _) := key in dag_id.

Definition key_logical_date (key : TaskInstanceKey) : datetime :=
  let '(_, _, logical_date, _) := key in logical_date.

(** The call found its workflow watched, resolved the run and saw all of
    the run's task instances in the [SUCCESS] state. *)
Definition run_complete (session : Session) (key : TaskInstanceKey)
    (self : Executor) : bool :=
  match dags_to_watch self !! key_dag_id key with
  | None => false
  | Some ns =>
      match cached_or_find session (key_dag_id key) (key_logical_date key) ns with
      | None => false
      | Some (run, _) => all_success (get_task_instances session run)
      end
  end.

(** The step is a completion of a run of workflow [dag_id]. *)
Definition completes (dag_id : string) (s : Step) : bool :=
  bool_decide (key_dag_id (ev_key (event s)) = dag_id)
  && run_complete (ev_session (event s)) (ev_key (event s)) (pre s).


(** ** Database helpers *)

(** [DagRunInfo]: the fields the script reads. *)
Record DagRunInfo := mkDagRunInfo {
  logical_date : datetime;
  data_interval : datetime * datetime
}.

(** A DAG object: the attributes and the one method the script uses.
    [default_args_end_date] is [dag.default_args.get("end_date")]. *)
Record DAG := mkDAG {
  dag_id : string;
  end_date : option datetime;
  default_args_end_date : option datetime;
  tasks : list string;
  next_dagrun_info : option (datetime * datetime) → option DagRunInfo
}.

(** [reset_dag]: three bulk statements filtered on the DAG's id. *)
Definition reset_dag (dag : DAG) (session : Session) : Session :=
  {| dag_model_rows :=
       map (λ m, if decide (dm_dag_id m = dag_id dag)
                 then {| dm_dag_id := dm_dag_id m; is_paused := false |}
                 else m)
           (dag_model_rows session);
     dag_run_rows :=
       filter (λ r, dr_dag_id r ≠ dag_id dag) (dag_run_rows session);
     task_instance_rows :=
       filter (λ t, ti_dag_id t ≠ dag_id dag) (task_instance_rows session) |}.

(** [pause_all_dags]: one bulk update without a filter. *)
Definition pause_all_dags (session : Session) : Session :=
  {| dag_model_rows :=
       map (λ m, {| dm_dag_id := dm_dag_id m; is_paused := true |})
           (dag_model_rows session);
     dag_run_rows := dag_run_rows session;
     task_instance_rows := task_instance_rows session |}.

(** [airflow.utils.types.DagRunType], [DagRunTriggeredByType] and
    [airflow.utils.state.DagRunState]: the script passes [MANUAL], [TEST]
    and [RUNNING] to [dag.create_dagrun]. *)
Module DagRunType.
Inductive t := BACKFILL_JOB | SCHEDULED | MANUAL | ASSET_TRIGGERED.
End DagRunType.

Module DagRunTriggeredByType.
Inductive t :=
  | CLI | OPERATOR | REST_API | UI | TEST | TIMETABLE | ASSET | BACKFILL.
End DagRunTriggeredByType.

Module DagRunState.
Inductive t := QUEUED | RUNNING | SUCCESS | FAILED.
End DagRunState.

Section Driver.

(** Collaborators of the script that live outside of it. *)
Variable isoformat : datetime → string.
Variable str_datetime : datetime → string.
Variable sync_to_db : DAG → Session → Session.
Variable load_executor : string → outcome.
Variable default_num_runs : Z.
(** [run_job(job=job_runner.job, execute_callable=job_runner._execute)]:
    the scheduling loop, with the seconds it took. *)
Variable run_job :
  JobRunner → Executor → Session → outcome * JobRunner * Executor * Session * Z.

(** [dag.create_dagrun(run_id=, logical_date=, data_interval=, run_after=,
    run_type=, triggered_by=, state=, start_date=, session=)]: a method of
    the library, which may refuse the run.  [start_date] is the reading of
    the clock at the call and is part of the collaborator. *)
Variable create_dagrun :
  DAG → string → datetime → datetime * datetime → datetime →
  DagRunType.t → DagRunTriggeredByType.t → DagRunState.t →
  Session → outcome * Session.

(** The loop of [create_dag_runs]; reading [next_info.logical_date] when
    the timetable has no further run is an [AttributeError], and an
    exception of [dag.create_dagrun] leaves the loop. *)
Fixpoint create_dag_runs_loop (n : nat) (dag : DAG)
    (last_dagrun_data_interval : option (datetime * datetime))
    (session : Session) : outcome * Session :=
  match n with
  | O => (Returned, session)
  | S n' =>
      match next_dagrun_info dag last_dagrun_data_interval with
      | None => (Raised AttributeError, session)
      | Some next_info =>
          match create_dagrun dag
                  ("scheduled__" +:+ isoformat (logical_date next_info))
                  (logical_date next_info)
                  (logical_date next_info, logical_date next_info)
                  (logical_date next_info)
                  DagRunType.MANUAL DagRunTriggeredByType.TEST
                  DagRunState.RUNNING session with
          | (Returned, session') =>
              create_dag_runs_loop n' dag (Some (data_interval next_info))
                session'
          | (Raised e, session') => (Raised e, session')
          end
      end
  end.

Definition create_dag_runs (dag : DAG) (num_runs : Z) (session : Session)
    : outcome * Session :=
  create_dag_runs_loop (Z.to_nat num_runs) dag None session.

(** ** main: validation of the end date *)

(** [for _ in range(num_runs - 1): next_info =
    dag.next_dagrun_info(next_info.data_interval)]; [None] stands for the
    [AttributeError] of reading an attribute of a missing run info. *)
Fixpoint later_run_info (n : nat) (dag : DAG) (next_info : DagRunInfo)
    : option DagRunInfo :=
  match n with
  | O => Some next_info
  | S n' =>
      match next_dagrun_info dag (Some (data_interval next_info)) with
      | None => None
      | Some next_info' => later_run_info n' dag next_info'
      end
  end.

(** Lines 263-266: the run info the end date is compared with. *)
Definition last_run_info (dag : DAG) (num_runs : Z) : option DagRunInfo :=
  match next_dagrun_info dag None with
  | None => None
  | Some next_info => later_run_info (Z.to_nat (num_runs - 1)) dag next_info
  end.

(** [dag.end_date or dag.default_args.get("end_date")]. *)
Definition configured_end_date (dag : DAG) : option datetime :=
  match end_date dag with
  | Some d => Some d
  | None => default_args_end_date dag
  end.

Definition str_end_date (d : option datetime) : string :=
  match d with
  | Some d => str_datetime d
  | None => "None"
  end.

(** The message of lines 270-273. *)
Definition end_date_message (dag_id : string) (end_date : option datetime)
    (expected : datetime) : string :=
  "DAG " +:+ dag_id +:+ " has incorrect end_date ("
    +:+ str_end_date end_date +:+ ") for number of runs! It should be "
    +:+ str_datetime expected.

(** The state of [main]'s first session block: the session and the list
    [dags]. *)
Definition setup_dag (dagbag : string → option DAG) (num_runs : Z)
    (pre_create_dag_runs : bool) (dag_id : string)
    (acc : Session * list DAG) : outcome * (Session * list DAG) :=
  let '(session, dags) := acc in
  match dagbag dag_id with
  | None => (Raised AttributeError, (session, dags))
  | Some dag =>
      let session := sync_to_db dag session in
      let dags := dags ++ [dag] in
      let session := reset_dag dag session in
      match last_run_info dag num_runs with
      | None => (Raised AttributeError, (session, dags))
      | Some next_info =>
          if bool_decide (configured_end_date dag
                          ≠ Some (logical_date next_info))
          then (Raised (SystemExit
                          (end_date_message dag_id (configured_end_date dag)
                             (logical_date next_info))),
                (session, dags))
          else if pre_create_dag_runs then
            let '(res, session) := create_dag_runs dag num_runs session in
            (res, (session, dags))
          else (Returned, (session, dags))
      end
  end.

(** [for dag_id in dag_ids: ...], left at the first exception. *)
Fixpoint setup_dags (dagbag : string → option DAG) (num_runs : Z)
    (pre_create_dag_runs : bool) (dag_ids : list string)
    (acc : Session * list DAG) : outcome * (Session * list DAG) :=
  match dag_ids with
  | [] => (Returned, acc)
  | dag_id :: dag_ids' =>
      match setup_dag dagbag num_runs pre_create_dag_runs dag_id acc with
      | (Returned, acc') =>
          setup_dags dagbag num_runs pre_create_dag_runs dag_ids' acc'
      | (Raised e, acc') => (Raised e, acc')
      end
  end.

(** ** main: the executor under test *)

(** [get_executor_under_test]: the branch for ["MockExecutor"] imports the
    class under the name [executor] and never binds [executor_cls], which
    the class statement then reads. *)
Definition get_executor_under_test (dotted_path : string) : outcome :=
  if bool_decide (dotted_path = "MockExecutor")
  then Raised UnboundLocalError
  else load_executor dotted_path.

(** ** main: the repeated trials *)

(** The variables of [main] the trial loop reads and writes, and the
    arguments of every call of [code_to_test] so far. *)
Record Driver := mkDriver {
  d_session : Session;
  d_executor : Executor;
  d_job_runner : JobRunner;
  times : list Z;
  calls : list (JobRunner * Executor * Session)
}.

(** Lines 301-308, the body of [if not count:].  The new job runner is
    bound to [main]'s variable; the executor keeps the runner it was given
    on line 284. *)
Definition reset_for_trial (dags : list DAG) (dag_ids : list string)
    (w : Driver) : Driver :=
  {| d_session := foldl (λ session dag, reset_dag dag session)
                        (d_session w) dags;
     d_executor := reset dag_ids (d_executor w);
     d_job_runner := {| num_runs := default_num_runs |};
     times := times w;
     calls := calls w |}.

(** Lines 310-315: one timed call of [code_to_test]. *)
Definition timed_run (w : Driver) : outcome * Driver :=
  let '(res, job_runner, executor, session, elapsed) :=
    run_job (d_job_runner w) (d_executor w) (d_session w) in
  (res,
   {| d_session := session;
      d_executor := executor;
      d_job_runner := job_runner;
      times := match res with
               | Returned => times w ++ [elapsed]
               | Raised _ => times w
               end;
      calls := calls w ++ [(d_job_runner w, d_executor w, d_session w)] |}).

(** The body of [for count in range(repeat)]: [not count] holds for
    [count = 0] only. *)
Definition trial (dags : list DAG) (dag_ids : list string) (count : nat)
    (w : Driver) : outcome * Driver :=
  timed_run (if bool_decide (count = 0%nat)
             then reset_for_trial dags dag_ids w
             else w).

Fixpoint trials (dags : list DAG) (dag_ids : list string)
    (counts : list nat) (w : Driver) : outcome * Driver :=
  match counts with
  | [] => (Returned, w)
  | count :: counts' =>
      match trial dags dag_ids count w with
      | (Returned, w') => trials dags dag_ids counts' w'
      | (Raised e, w') => (Raised e, w')
      end
  end.

(** Lines 317-326: the summary reads [times[0]] when there are fewer than
    two measurements. *)
Definition report (times : list Z) : outcome :=
  match times with
  | [] => Raised IndexError
  | _ => Returned
  end.

(** What a run of [main] leaves behind: how it ended, the measurements and
    the arguments of the calls of [code_to_test]. *)
Record Run := mkRun {
  exit : outcome;
  measured : list Z;
  trial_calls : list (JobRunner * Executor * Session)
}.

(** [main].  The environment variables it sets, the profiler it may spawn
    and what it prints have no part in its control flow and are left out. *)

Definition main (num_runs repeat : Z) (pre_create_dag_runs : bool)
    (executor_class : string) (dag_ids : list string)
    (dagbag : string → option DAG) (session : Session) : Run :=
  let session := pause_all_dags session in
  match setup_dags dagbag num_runs pre_create_dag_runs dag_ids (session, []) with
  | (Raised e, _) =>
      {| exit := Raised e; measured := []; trial_calls := [] |}
  | (Returned, (session, dags)) =>
      match get_executor_under_test executor_class with
      | Raised e => {| exit := Raised e; measured := []; trial_calls := [] |}
      | Returned =>
          let executor := Executor_init dag_ids num_runs in
          let job_runner := {| num_runs := default_num_runs |} in
          let executor := set_job_runner (Some job_runner) executor in
          let w := {| d_session := session; d_executor := executor;
                      d_job_runner := job_runner; times := [];
                      calls := [] |} in
          match trials dags dag_ids (seq 0 (Z.to_nat repeat)) w with
          | (Raised e, w) =>
              {| exit := Raised e; measured := times w;
                 trial_calls := calls w |}
          | (Returned, w) =>
              {| exit := report (times w); measured := times w;
                 trial_calls := calls w |}
          end
      end
  end.

End Driver.


(** ** Auxiliary definitions for the properties *)

(** The watch set after a call that saw a run of [d] complete. *)
Definition watch_after_completion (d : string) (ld : Z) (ns : Namespace)
    (w : gmap string Namespace) : gmap string Namespace :=
  if bool_decide (waiting_for ns - 1 = 0)
  then delete d w
  else <[d := {| waiting_for := waiting_for ns - 1;
                 runs := delete ld (runs ns) |}]> w.

(** The four ways a call can go. *)
Inductive call_shape (session : Session) (key : TaskInstanceKey)
    (self : Executor) : Prop :=
  | shape_untracked :
      dags_to_watch self !! key_dag_id key = None →
      call_shape session key self
  | shape_not_found ns :
      dags_to_watch self !! key_dag_id key = Some ns →
      cached_or_find session (key_dag_id key) (key_logical_date key) ns = None →
      call_shape session key self
  | shape_incomplete ns run ns1 :
      dags_to_watch self !! key_dag_id key = Some ns →
      cached_or_find session (key_dag_id key) (key_logical_date key) ns
        = Some (run, ns1) →
      all_success (get_task_instances session run) = false →
      call_shape session key self
  | shape_complete ns run ns1 :
      dags_to_watch self !! key_dag_id key = Some ns →
      cached_or_find session (key_dag_id key) (key_logical_date key) ns
        = Some (run, ns1) →
      all_success (get_task_instances session run) = true →
      call_shape session key self.

(** Every counter of the watch set is at or below zero. *)
Definition nonpositive (self : Executor) : Prop :=
  ∀ d ns, dags_to_watch self !! d = Some ns → waiting_for ns ≤ 0.


(** ** A small benchmark used in the examples

    One workflow ["d"] whose only run has logical date 10 and one task. *)

Definition ex_run : DagRun :=
  {| dr_dag_id := "d"; dr_run_id := "run1"; dr_logical_date := 10 |}.

Definition ex_task : TaskInstance :=
  {| ti_dag_id := "d"; ti_run_id := "run1"; ti_task_id := "t1";
     state := Some SUCCESS |}.

(** The run is not in the database yet. *)
Definition ex_session_no_run : Session :=
  {| dag_model_rows := [ {| dm_dag_id := "d"; is_paused := false |} ];
     dag_run_rows := [];
     task_instance_rows := [] |}.

(** The run is in the database and its task has succeeded. *)
Definition ex_session_done : Session :=
  {| dag_model_rows := [ {| dm_dag_id := "d"; is_paused := false |} ];
     dag_run_rows := [ex_run];
     task_instance_rows := [ex_task] |}.

(** The run is in the database and has no task instance. *)
Definition ex_session_no_tasks : Session :=
  {| dag_model_rows := [ {| dm_dag_id := "d"; is_paused := false |} ];
     dag_run_rows := [ex_run];
     task_instance_rows := [] |}.

(** The run is in the database and its task is still running. *)
Definition ex_session_running : Session :=
  {| dag_model_rows := [ {| dm_dag_id := "d"; is_paused := false |} ];
     dag_run_rows := [ex_run];
     task_instance_rows :=
       [ {| ti_dag_id := "d"; ti_run_id := "run1"; ti_task_id := "t1";
            state := Some RUNNING |} ] |}.

Definition ex_key : TaskInstanceKey := ("d", "t1", 10, 1).

Definition ex_event (session : Session) : Event :=
  {| ev_session := session; ev_key := ex_key; ev_state := SUCCESS |}.

(** The executor as [main] builds it for ["d"] and [n] runs. *)
Definition ex_executor (n : Z) : Executor :=
  set_job_runner (Some {| num_runs := -1 |}) (Executor_init ["d"] n).



(** A DAG whose schedule has the single run of logical date 10. *)
Definition ex_dag (end_date : option datetime) : DAG :=
  {| dag_id := "d";
     end_date := end_date;
     default_args_end_date := None;
     tasks := ["t1"];
     next_dagrun_info := λ last,
       match last with
       | None => Some {| logical_date := 10; data_interval := (10, 10) |}
       | Some _ => None
       end |}.

Definition ex_dagbag (end_date : option datetime) (dag_id : string)
    : option DAG :=
  if bool_decide (dag_id = "d") then Some (ex_dag end_date) else None.

Definition ex_str_datetime (d : datetime) : string :=
  if bool_decide (d = 10) then "2020-01-10" else "2020-01-01".

(** A scheduling loop that creates the run of ["d"], marks its task as
    succeeded and notifies the executor; it reports 7 seconds. *)
Definition ex_run_job (job_runner : JobRunner) (executor : Executor)
    (session : Session)
    : outcome * JobRunner * Executor * Session * Z :=
  let session :=
    {| dag_model_rows := dag_model_rows session;
       dag_run_rows := dag_run_rows session ++ [ex_run];
       task_instance_rows := task_instance_rows session ++ [ex_task] |} in
  let '(res, executor, _) := change_state session ex_key SUCCESS executor in
  (res, job_runner, executor, session, 7).

(** A stand-in for [dag.create_dagrun] in the examples: it refuses a
    manual run whose id is reserved for scheduled runs and leaves the
    session as it is; any other run gets its row. *)
Definition ex_create_dagrun (dag : DAG) (run_id : string)
    (logical_date : datetime) (data_interval : datetime * datetime)
    (run_after : datetime) (run_type : DagRunType.t)
    (triggered_by : DagRunTriggeredByType.t) (run_state : DagRunState.t)
    (session : Session) : outcome * Session :=
  let created :=
    {| dag_model_rows := dag_model_rows session;
       dag_run_rows :=
         dag_run_rows session
           ++ [ {| dr_dag_id := dag_id dag; dr_run_id := run_id;
                   dr_logical_date := logical_date |} ];
       task_instance_rows := task_instance_rows session |} in
  match run_type with
  | DagRunType.MANUAL =>
      if String.prefix "scheduled__" run_id
      then (Raised (OtherError "ValueError"), session)
      else (Returned, created)
  | _ => (Returned, created)
  end.

(** [main] on the example, with a loadable executor class. *)
Definition ex_main (end_date : option datetime) (repeat : Z) : Run :=
  main ex_str_datetime ex_str_datetime (λ _ session, session)
    (λ _, Returned) (-1) ex_run_job ex_create_dagrun
    1 repeat false "LocalExecutor" ["d"] (ex_dagbag end_date)
    ex_session_no_run.




(** ** Auxiliary definitions for the further properties *)

(** The call counted a run as complete. *)
Definition counts_run (s : Step) : bool :=
  run_complete (ev_session (event s)) (ev_key (event s)) (pre s).

(** Number of calls of a trace that counted a run. *)
Definition counted_runs (tr : list Step) : nat :=
  length (filter (λ s, counts_run s = true) tr).

(** Every counter of the watch set lies between one and [hi]. *)
Definition counters_within (hi : Z) (self : Executor) : Prop :=
  ∀ d ns, dags_to_watch self !! d = Some ns → 1 ≤ waiting_for ns ≤ hi.

(** Wiping every DAG of a list, as the first trial does. *)
Definition reset_dags (dags : list DAG) (session : Session) : Session :=
  foldl (λ session dag, reset_dag dag session) session dags.

(** The duration [main] records for a call of [code_to_test] with these
    arguments: the seconds of the call when it returns, none when it
    raises. *)
Definition recorded
    (run_job : JobRunner → Executor → Session →
               outcome * JobRunner * Executor * Session * Z)
    (args : JobRunner * Executor * Session) : option Z :=
  let '(job_runner, executor, session) := args in
  let '(res, _, _, _, elapsed) := run_job job_runner executor session in
  match res with
  | Returned => Some elapsed
  | Raised _ => None
  end.

(** What the setup of [main] has checked for a workflow id and the DAG
    it put in the list [dags]. *)
Definition validated (dagbag : string → option DAG) (num_runs : Z)
    (dag_id : string) (dag : DAG) : Prop :=
  dagbag dag_id = Some dag
  ∧ ∃ info, last_run_info dag num_runs = Some info
            ∧ configured_end_date dag = Some (logical_date info).

(** * Properties *)

(** ** One call of [change_state] *)

Lemma cached_or_find_Some session d ld ns run ns1 :
  cached_or_find session d ld ns = Some (run, ns1) →
  waiting_for ns1 = waiting_for ns
  ∧ runs ns1 !! ld = Some run
  ∧ delete ld (runs ns1) = delete ld (runs ns).
Proof.
  unfold cached_or_find. intros H.
  destruct (runs ns !! ld) as [r|] eqn:Hc.
  - by simplify_eq.
  - destruct (DagRun_find session d ld) as [|r rest]; [done|].
    simplify_eq. simpl. rewrite lookup_insert_eq, delete_insert_eq. done.
Qed.

Lemma change_state_untracked session key st self :
  dags_to_watch self !! key_dag_id key = None →
  change_state session key st self
  = (Returned, super_change_state key st self, []).
Proof.
  destruct key as [[[d t] ld] tn]. simpl. intros H.
  unfold change_state. simpl. by rewrite H.
Qed.

Lemma change_state_not_found session key st self ns :
  dags_to_watch self !! key_dag_id key = Some ns →
  cached_or_find session (key_dag_id key) (key_logical_date key) ns = None →
  change_state session key st self
  = (Raised IndexError, super_change_state key st self, []).
Proof.
  destruct key as [[[d t] ld] tn]. simpl. intros H1 H2.
  unfold change_state. simpl. by rewrite H1, H2.
Qed.

Lemma change_state_incomplete session key st self ns run ns1 :
  dags_to_watch self !! key_dag_id key = Some ns →
  cached_or_find session (key_dag_id key) (key_logical_date key) ns
    = Some (run, ns1) →
  all_success (get_task_instances session run) = false →
  change_state session key st self
  = (Returned,
     set_dags_to_watch (<[key_dag_id key := ns1]> (dags_to_watch self))
       (super_change_state key st self),
     [WAITING_ON (total_waiting (<[key_dag_id key := ns1]> (dags_to_watch self)))]).
Proof.
  destruct key as [[[d t] ld] tn]. simpl. intros H1 H2 H3.
  unfold change_state. simpl. by rewrite H1, H2, H3.
Qed.

Lemma change_state_complete session key st self ns run ns1 :
  dags_to_watch self !! key_dag_id key = Some ns →
  cached_or_find session (key_dag_id key) (key_logical_date key) ns
    = Some (run, ns1) →
  all_success (get_task_instances session run) = true →
  let w := watch_after_completion (key_dag_id key) (key_logical_date key) ns
             (dags_to_watch self) in
  let self1 := set_dags_to_watch w (super_change_state key st self) in
  change_state session key st self
  = if bool_decide (w = ∅) then
      match job_runner self with
      | None => (Raised AttributeError, self1, [STOPPING_SCHEDULER])
      | Some _ => (Returned, set_job_runner (Some {| num_runs := 1 |}) self1,
                   [STOPPING_SCHEDULER])
      end
    else (Returned, self1, [WAITING_ON (total_waiting w)]).
Proof.
  destruct key as [[[d t] ld] tn]. simpl. intros H1 H2 H3.
  apply cached_or_find_Some in H2 as H4. destruct H4 as (Hw & _ & Hr).
  unfold change_state, watch_after_completion. simpl.
  rewrite H1, H2, H3. simpl. rewrite Hw, Hr. done.
Qed.

Lemma call_shape_total session key self : call_shape session key self.
Proof.
  destruct (dags_to_watch self !! key_dag_id key) as [ns|] eqn:Hd;
    [|by apply shape_untracked].
  destruct (cached_or_find session (key_dag_id key) (key_logical_date key) ns)
    as [[run ns1]|] eqn:Hc; [|by eapply shape_not_found].
  destruct (all_success (get_task_instances session run)) eqn:Ha;
    [by eapply shape_complete | by eapply shape_incomplete].
Qed.

Lemma run_complete_true session key self :
  run_complete session key self = true ↔
  ∃ ns run ns1,
    dags_to_watch self !! key_dag_id key = Some ns
    ∧ cached_or_find session (key_dag_id key) (key_logical_date key) ns
        = Some (run, ns1)
    ∧ all_success (get_task_instances session run) = true.
Proof.
  unfold run_complete. split.
  - destruct (dags_to_watch self !! key_dag_id key) as [ns|]; [|done].
    destruct (cached_or_find _ _ _ _) as [[run ns1]|] eqn:Hc; [|done].
    intros Ha. exists ns, run, ns1. auto.
  - intros (ns & run & ns1 & -> & -> & ->). done.
Qed.

Lemma do_step_pre ev self : pre (do_step ev self) = self.
Proof.
  unfold do_step. by destruct (change_state _ _ _ _) as [[? ?] ?].
Qed.

Lemma do_step_event ev self : event (do_step ev self) = ev.
Proof.
  unfold do_step. by destruct (change_state _ _ _ _) as [[? ?] ?].
Qed.

Lemma do_step_eq ev self res self' out :
  change_state (ev_session ev) (ev_key ev) (ev_state ev) self
    = (res, self', out) →
  do_step ev self
  = {| pre := self; event := ev; result := res; post := self'; logged := out |}.
Proof. unfold do_step. by intros ->. Qed.

Lemma watch_after_completion_lookup d ld ns w d' :
  watch_after_completion d ld ns w !! d'
  = if decide (d = d') then
      if bool_decide (waiting_for ns - 1 = 0) then None
      else Some {| waiting_for := waiting_for ns - 1;
                   runs := delete ld (runs ns) |}
    else w !! d'.
Proof.
  unfold watch_after_completion.
  case_bool_decide; case_decide; simplify_map_eq; done.
Qed.

Lemma watch_after_completion_empty d ld ns w :
  watch_after_completion d ld ns w = ∅ → waiting_for ns - 1 = 0.
Proof.
  unfold watch_after_completion. case_bool_decide; [done|].
  intros He. by apply insert_non_empty in He.
Qed.

(** Case analysis on a step: rewrites [do_step ev self] to the record of
    what the call did, in each of its shapes. *)
Ltac step_cases ev self :=
  let Hd := fresh "Hd" in
  let Hc := fresh "Hc" in
  let Ha := fresh "Ha" in
  let Hcs := fresh "Hcs" in
  let He := fresh "He" in
  let Hj := fresh "Hj" in
  destruct (call_shape_total (ev_session ev) (ev_key ev) self)
    as [Hd | ns0 Hd Hc | ns0 run0 ns1 Hd Hc Ha | ns0 run0 ns1 Hd Hc Ha];
  [ rewrite (do_step_eq _ _ _ _ _
               (change_state_untracked _ _ (ev_state ev) _ Hd))
  | rewrite (do_step_eq _ _ _ _ _
               (change_state_not_found _ _ (ev_state ev) _ _ Hd Hc))
  | rewrite (do_step_eq _ _ _ _ _
               (change_state_incomplete _ _ (ev_state ev) _ _ _ _ Hd Hc Ha))
  | pose proof (change_state_complete _ _ (ev_state ev) _ _ _ _ Hd Hc Ha)
      as Hcs;
    simpl in Hcs;
    destruct (bool_decide
                (watch_after_completion (key_dag_id (ev_key ev))
                   (key_logical_date (ev_key ev)) ns0 (dags_to_watch self)
                 = ∅)) eqn:He;
    [ destruct (job_runner self) eqn:Hj | ];
    rewrite (do_step_eq _ _ _ _ _ Hcs);
    [ apply bool_decide_eq_true_1 in He
    | apply bool_decide_eq_true_1 in He
    | apply bool_decide_eq_false_1 in He ] ];
  simpl.

Lemma step_num_runs_per_dag ev self :
  num_runs_per_dag (post (do_step ev self)) = num_runs_per_dag self.
Proof. step_cases ev self; done. Qed.

Lemma step_watch_mono ev self d ns' :
  dags_to_watch (post (do_step ev self)) !! d = Some ns' →
  ∃ ns, dags_to_watch self !! d = Some ns ∧ waiting_for ns' ≤ waiting_for ns.
Proof.
  step_cases ev self.
  - intros H. exists ns'. split; [done|lia].
  - intros H. exists ns'. split; [done|lia].
  - apply cached_or_find_Some in Hc as (Hw & _ & _).
    rewrite lookup_insert. case_decide as Heq.
    + intros [= <-]. subst d. exists ns0. split; [done|lia].
    + intros H. exists ns'. split; [done|lia].
  - rewrite He, lookup_empty. done.
  - rewrite He, lookup_empty. done.
  - rewrite watch_after_completion_lookup. case_decide as Heq.
    + case_bool_decide; [done|]. intros [= <-]. subst d. simpl.
      exists ns0. split; [done|lia].
    + intros H. exists ns'. split; [done|lia].
Qed.

Lemma lookup_Some_non_empty (w : gmap string Namespace) d ns :
  w !! d = Some ns → w ≠ ∅.
Proof. intros H ->. by rewrite lookup_empty in H. Qed.

Lemma stop_not_in_nil : STOPPING_SCHEDULER ∉ ([] : list LogRecord).
Proof. apply not_elem_of_nil. Qed.

Lemma stop_not_in_waiting n : STOPPING_SCHEDULER ∉ [WAITING_ON n].
Proof. intros H. apply list_elem_of_singleton in H. discriminate. Qed.

Lemma stop_in_stopping : STOPPING_SCHEDULER ∈ [STOPPING_SCHEDULER].
Proof. by apply list_elem_of_singleton. Qed.

Lemma step_stop_iff ev self :
  stop_issued (do_step ev self) ↔
  dags_to_watch self ≠ ∅ ∧ dags_to_watch (post (do_step ev self)) = ∅.
Proof.
  unfold stop_issued. step_cases ev self.
  - split; [by intros ?%stop_not_in_nil | by intros [? ?]].
  - split; [by intros ?%stop_not_in_nil|].
    intros [_ H]. rewrite H, lookup_empty in Hd. done.
  - split.
    + by intros H%stop_not_in_waiting.
    + intros [_ H]. by apply insert_non_empty in H.
  - split; [|intros; apply stop_in_stopping].
    intros _. split; [by eapply lookup_Some_non_empty | done].
  - split; [|intros; apply stop_in_stopping].
    intros _. split; [by eapply lookup_Some_non_empty | done].
  - split.
    + by intros H%stop_not_in_waiting.
    + intros [_ H]. done.
Qed.

Lemma step_job_runner_stop ev self :
  stop_issued (do_step ev self) → is_Some (job_runner self) →
  result (do_step ev self) = Returned
  ∧ job_runner (post (do_step ev self)) = Some {| num_runs := 1 |}.
Proof.
  unfold stop_issued. step_cases ev self; try done.
  - by intros ?%stop_not_in_nil.
  - by intros ?%stop_not_in_nil.
  - by intros ?%stop_not_in_waiting.
  - by intros ?%stop_not_in_waiting.
Qed.

Lemma step_job_runner_keep ev self :
  ¬ stop_issued (do_step ev self) →
  job_runner (post (do_step ev self)) = job_runner self.
Proof.
  unfold stop_issued. step_cases ev self; try done.
  intros H. destruct H. apply stop_in_stopping.
Qed.


Lemma step_complete ev self d ns :
  completes d (do_step ev self) = true →
  dags_to_watch self !! d = Some ns →
  dags_to_watch (post (do_step ev self)) !! d
  = if bool_decide (waiting_for ns - 1 = 0) then None
    else Some {| waiting_for := waiting_for ns - 1;
                 runs := delete (key_logical_date (ev_key ev)) (runs ns) |}.
Proof.
  unfold completes. rewrite do_step_pre, do_step_event.
  intros [Hk Hr]%andb_true_iff Hns.
  apply bool_decide_eq_true_1 in Hk. subst d.
  apply run_complete_true in Hr as (nsa & runa & nsb & H1 & H2 & H3).
  step_cases ev self; simplify_eq; try congruence;
    by rewrite watch_after_completion_lookup, decide_True.
Qed.

Lemma step_keep ev self d ns :
  completes d (do_step ev self) = false →
  dags_to_watch self !! d = Some ns →
  ∃ ns', dags_to_watch (post (do_step ev self)) !! d = Some ns'
         ∧ waiting_for ns' = waiting_for ns.
Proof.
  unfold completes. rewrite do_step_pre, do_step_event.
  intros Hn Hns.
  assert (key_dag_id (ev_key ev) = d →
          run_complete (ev_session ev) (ev_key ev) self = false) as Hkd.
  { intros Heq. by rewrite bool_decide_eq_true_2 in Hn. }
  assert (∀ nsa runa nsb,
            dags_to_watch self !! key_dag_id (ev_key ev) = Some nsa →
            cached_or_find (ev_session ev) (key_dag_id (ev_key ev))
              (key_logical_date (ev_key ev)) nsa = Some (runa, nsb) →
            all_success (get_task_instances (ev_session ev) runa) = true →
            key_dag_id (ev_key ev) ≠ d) as Hother.
  { intros nsa runa nsb H1 H2 H3 Heq. specialize (Hkd Heq).
    assert (run_complete (ev_session ev) (ev_key ev) self = true) as Hr
      by (apply run_complete_true; exists nsa, runa, nsb; auto).
    congruence. }
  step_cases ev self.
  - by exists ns.
  - by exists ns.
  - apply cached_or_find_Some in Hc as (Hw & _ & _).
    rewrite lookup_insert. case_decide as Heq.
    + subst d. simplify_eq. by exists ns1.
    + by exists ns.
  - specialize (Hother _ _ _ Hd Hc Ha).
    apply (f_equal (λ w, w !! d)) in He.
    rewrite watch_after_completion_lookup, decide_False, lookup_empty in He
      by done. congruence.
  - specialize (Hother _ _ _ Hd Hc Ha).
    apply (f_equal (λ w, w !! d)) in He.
    rewrite watch_after_completion_lookup, decide_False, lookup_empty in He
      by done. congruence.
  - specialize (Hother _ _ _ Hd Hc Ha).
    rewrite watch_after_completion_lookup, decide_False by done.
    by exists ns.
Qed.


(** A watched workflow leaves the watch set only in a call that completes
    one of its runs and finds its counter at one. *)
Lemma step_removed ev self d ns :
  dags_to_watch self !! d = Some ns →
  dags_to_watch (post (do_step ev self)) !! d = None →
  completes d (do_step ev self) = true ∧ waiting_for ns = 1.
Proof.
  intros Hns Hnone.
  destruct (completes d (do_step ev self)) eqn:Hc.
  - split; [done|]. rewrite (step_complete _ _ _ _ Hc Hns) in Hnone.
    case_bool_decide; [lia|done].
  - destruct (step_keep _ _ _ _ Hc Hns) as (ns' & H & _). congruence.
Qed.

(** ** Sequences of calls *)

(** Induction over the calls of a trace: the tail of a trace is the trace
    of the remaining notifications from the state the first call left, or
    is empty when the first call raised. *)
Lemma exec_trace_ind (P : Executor → list Step → Prop) :
  (∀ self, P self []) →
  (∀ ev self evs',
     P (post (do_step ev self)) (exec_trace evs' (post (do_step ev self))) →
     P self (do_step ev self :: exec_trace evs' (post (do_step ev self)))) →
  ∀ evs self, P self (exec_trace evs self).
Proof.
  intros Hnil Hcons evs. induction evs as [|ev evs IH]; intros self.
  - apply Hnil.
  - simpl. destruct (result (do_step ev self)).
    + apply Hcons, IH.
    + apply (Hcons ev self []), Hnil.
Qed.

Lemma final_state_cons self s tr :
  final_state self (s :: tr) = final_state (post s) tr.
Proof.
  unfold final_state. rewrite last_cons. by destruct (last tr).
Qed.


(** Every step of a trace is a call of [change_state]. *)
Lemma exec_trace_step evs self s :
  s ∈ exec_trace evs self → s = do_step (event s) (pre s).
Proof.
  revert evs self.
  refine (exec_trace_ind (λ self tr, s ∈ tr → s = do_step (event s) (pre s))
            _ _).
  - by intros self ?%elem_of_nil.
  - intros ev self evs' IH [->|Hin]%elem_of_cons; [|by apply IH].
    by rewrite do_step_event, do_step_pre.
Qed.

(** The first call starts from the initial state and every later call
    from the state its predecessor left. *)
Lemma exec_trace_chain evs self :
  let tr := exec_trace evs self in
  (∀ s, tr !! 0%nat = Some s → pre s = self)
  ∧ (∀ i s s', tr !! i = Some s → tr !! S i = Some s' →
       result s = Returned ∧ pre s' = post s).
Proof.
  revert self. induction evs as [|ev evs IH]; intros self; simpl.
  - split; [by intros s ?|by intros i s s' ?].
  - split.
    + intros s [= <-]. apply do_step_pre.
    + intros i s s' Hi Hi'.
      destruct (result (do_step ev self)) eqn:Hres; [|done].
      destruct (IH (post (do_step ev self))) as [IH0 IHS].
      destruct i as [|i]; simpl in *.
      * simplify_eq. split; [done|]. by apply IH0.
      * by eapply IHS.
Qed.

(** Once the watch set is empty, no call changes it or issues a stop. *)
Lemma exec_trace_empty_stays evs self :
  dags_to_watch self = ∅ →
  ∀ s, s ∈ exec_trace evs self →
    dags_to_watch (pre s) = ∅ ∧ dags_to_watch (post s) = ∅ ∧ ¬ stop_issued s.
Proof.
  revert evs self.
  assert (∀ ev self, dags_to_watch self = ∅ →
            dags_to_watch (post (do_step ev self)) = ∅
            ∧ ¬ stop_issued (do_step ev self)) as Hstep.
  { intros ev self He. split.
    - apply map_empty. intros d.
      destruct (dags_to_watch (post (do_step ev self)) !! d) eqn:Hl; [|done].
      apply step_watch_mono in Hl as (ns & Hl & _).
      by rewrite He, lookup_empty in Hl.
    - intros [Hne _]%step_stop_iff. done. }
  refine (exec_trace_ind
            (λ self tr, dags_to_watch self = ∅ → ∀ s, s ∈ tr →
               dags_to_watch (pre s) = ∅ ∧ dags_to_watch (post s) = ∅
               ∧ ¬ stop_issued s) _ _).
  - by intros self _ s ?%elem_of_nil.
  - intros ev self evs' IH He s [->|Hin]%elem_of_cons.
    + rewrite do_step_pre. split; [done|]. by apply Hstep.
    + apply IH; [|done]. by apply Hstep.
Qed.

(** After a call that issued the stop, no later call issues it again. *)
Lemma exec_trace_stop_once evs self :
  ∀ i j si sj,
    exec_trace evs self !! i = Some si → exec_trace evs self !! j = Some sj →
    stop_issued si → (i < j)%nat →
    ¬ stop_issued sj ∧ dags_to_watch (post sj) = ∅.
Proof.
  revert evs self.
  refine (exec_trace_ind
            (λ self tr, ∀ i j si sj, tr !! i = Some si → tr !! j = Some sj →
               stop_issued si → (i < j)%nat →
               ¬ stop_issued sj ∧ dags_to_watch (post sj) = ∅) _ _).
  - by intros self i j si sj ?.
  - intros ev self evs' IH i j si sj Hi Hj Hstop Hlt.
    destruct j as [|j]; [lia|]. simpl in Hj.
    destruct i as [|i]; simpl in Hi.
    + simplify_eq. apply step_stop_iff in Hstop as [_ He].
      apply list_elem_of_lookup_2 in Hj.
      destruct (exec_trace_empty_stays _ _ He _ Hj) as (_ & ? & ?). done.
    + eapply (IH i j); eauto with lia.
Qed.

(** *** Counters at or below zero *)

Lemma step_nonpositive ev self :
  nonpositive self →
  nonpositive (post (do_step ev self))
  ∧ (∀ d, is_Some (dags_to_watch self !! d) →
          is_Some (dags_to_watch (post (do_step ev self)) !! d))
  ∧ ¬ stop_issued (do_step ev self).
Proof.
  intros Hinv.
  assert (∀ d, is_Some (dags_to_watch self !! d) →
               is_Some (dags_to_watch (post (do_step ev self)) !! d)) as Hdom.
  { intros d [ns Hns].
    destruct (dags_to_watch (post (do_step ev self)) !! d) eqn:Hp; [by eexists|].
    destruct (step_removed _ _ _ _ Hns Hp) as [_ H1].
    specialize (Hinv _ _ Hns). lia. }
  split; [|split; [done|]].
  - intros d ns' Hns'. apply step_watch_mono in Hns' as (ns & Hns & Hle).
    specialize (Hinv _ _ Hns). lia.
  - intros [Hne He]%step_stop_iff.
    apply map_choose in Hne as (d & ns & Hns).
    destruct (Hdom d) as [ns' Hns']; [by eexists|].
    by rewrite He, lookup_empty in Hns'.
Qed.

Lemma exec_trace_nonpositive evs self :
  nonpositive self →
  ∀ s, s ∈ exec_trace evs self →
    nonpositive (post s)
    ∧ (∀ d, is_Some (dags_to_watch self !! d) →
            is_Some (dags_to_watch (post s) !! d))
    ∧ ¬ stop_issued s.
Proof.
  revert evs self.
  refine (exec_trace_ind
            (λ self tr, nonpositive self → ∀ s, s ∈ tr →
               nonpositive (post s)
               ∧ (∀ d, is_Some (dags_to_watch self !! d) →
                       is_Some (dags_to_watch (post s) !! d))
               ∧ ¬ stop_issued s) _ _).
  - by intros self _ s ?%elem_of_nil.
  - intros ev self evs' IH Hinv s [->|Hin]%elem_of_cons.
    + by apply step_nonpositive.
    + destruct (step_nonpositive ev self Hinv) as (Hinv' & Hdom & _).
      destruct (IH Hinv' s Hin) as (? & Hdom' & ?).
      split; [done|]. split; [|done]. intros d Hd. by apply Hdom', Hdom.
Qed.

(** *** The watch set built by [reset] *)

Lemma reset_lookup ids self d :
  dags_to_watch (reset ids self) !! d
  = if decide (d ∈ ids)
    then Some {| waiting_for := num_runs_per_dag self; runs := ∅ |}
    else None.
Proof.
  unfold reset. simpl.
  assert (∀ acc : gmap string Namespace,
            foldl (λ acc dag_id,
                     <[dag_id := {| waiting_for := num_runs_per_dag self;
                                    runs := ∅ |}]> acc) acc ids !! d
            = if decide (d ∈ ids)
              then Some {| waiting_for := num_runs_per_dag self; runs := ∅ |}
              else acc !! d) as Hgen.
  { induction ids as [|i ids IH]; intros acc.
    - done.
    - cbn [foldl]. rewrite IH.
      destruct (decide (d ∈ ids)) as [Hin|Hnin].
      + rewrite decide_True; [done|]. by apply elem_of_cons; right.
      + destruct (decide (i = d)) as [->|Hne].
        * rewrite lookup_insert_eq, decide_True; [done|].
          by apply elem_of_cons; left.
        * rewrite lookup_insert_ne, decide_False; [done| |done].
          intros [->|?]%elem_of_cons; done. }
  rewrite Hgen. by case_decide.
Qed.

(** *** Counting down *)



(** * The claims *)

(** ** The untracked-run race *)

(** Calls for a watched workflow whose run is neither cached nor in the
    database raise [IndexError]; the watch set is left as it was. *)
Lemma change_state_missing_run session key st self ns :
  dags_to_watch self !! key_dag_id key = Some ns →
  runs ns !! key_logical_date key = None →
  DagRun_find session (key_dag_id key) (key_logical_date key) = [] →
  change_state session key st self
  = (Raised IndexError, super_change_state key st self, []).
Proof.
  intros Hd Hc Hf. eapply change_state_not_found; [done|].
  unfold cached_or_find. by rewrite Hc, Hf.
Qed.

(** C1 (violated by the code): the run of ["d"] with logical date 10 is
    not in the database, the workflow is watched; [change_state] does not
    return normally but raises [IndexError], from [find(...)[0]] on the
    empty list of matches.  The watch set is unchanged. *)
Theorem C1_missing_run_raises_IndexError :
  DagRun_find ex_session_no_run "d" 10 = []
  ∧ fst (fst (change_state ex_session_no_run ex_key SUCCESS (ex_executor 1)))
    = Raised IndexError
  ∧ dags_to_watch
      (snd (fst (change_state ex_session_no_run ex_key SUCCESS (ex_executor 1))))
    = dags_to_watch (ex_executor 1).
Proof.
  split; [done|].
  rewrite (change_state_missing_run _ ex_key _ _
             {| waiting_for := 1; runs := ∅ |}); done.
Qed.

(** A call that counts a run as complete returns normally when the
    executor has its job runner. *)
Lemma step_complete_returns ev self d :
  completes d (do_step ev self) = true →
  is_Some (job_runner self) →
  result (do_step ev self) = Returned.
Proof.
  unfold completes. rewrite do_step_pre, do_step_event.
  intros [_ Hr]%andb_true_iff Hjr.
  apply run_complete_true in Hr as (nsa & runa & nsb & H1 & H2 & H3).
  step_cases ev self; by simplify_eq.
Qed.

(** ** Re-delivery *)




(** ** The stop instruction *)

(** C4: in every sequence of calls, the stop instruction is issued by a
    call exactly when that call finds the watch set non-empty and leaves it
    empty; such a call sets the job runner's [num_runs] to one and returns
    normally, every other call leaves the job runner alone, and no call
    after it issues the instruction again. *)
Theorem C4_stop_issued_exactly_on_emptying_call evs self :
  let tr := exec_trace evs self in
  (∀ s, s ∈ tr →
     stop_issued s ↔
     dags_to_watch (pre s) ≠ ∅ ∧ dags_to_watch (post s) = ∅)
  ∧ (∀ s, s ∈ tr → stop_issued s → is_Some (job_runner (pre s)) →
       result s = Returned ∧ job_runner (post s) = Some {| num_runs := 1 |})
  ∧ (∀ s, s ∈ tr → ¬ stop_issued s → job_runner (post s) = job_runner (pre s))
  ∧ (∀ i j si sj, tr !! i = Some si → tr !! j = Some sj →
       stop_issued si → (i < j)%nat →
       ¬ stop_issued sj ∧ dags_to_watch (post sj) = ∅).
Proof.
  intros tr. split; [|split; [|split]].
  - intros s Hin. pose proof (step_stop_iff (event s) (pre s)) as H.
    by rewrite <- (exec_trace_step _ _ _ Hin) in H.
  - intros s Hin. pose proof (step_job_runner_stop (event s) (pre s)) as H.
    by rewrite <- (exec_trace_step _ _ _ Hin) in H.
  - intros s Hin. pose proof (step_job_runner_keep (event s) (pre s)) as H.
    by rewrite <- (exec_trace_step _ _ _ Hin) in H.
  - apply exec_trace_stop_once.
Qed.

Lemma C4_stop_witness :
  ∃ s, exec_trace [ex_event ex_session_running; ex_event ex_session_done;
                   ex_event ex_session_done; ex_event ex_session_done]
         (ex_executor 2) !! 2%nat = Some s
       ∧ stop_issued s
       ∧ job_runner (post s) = Some {| num_runs := 1 |}
       ∧ ∀ sj, exec_trace [ex_event ex_session_running;
                           ex_event ex_session_done;
                           ex_event ex_session_done;
                           ex_event ex_session_done]
                 (ex_executor 2) !! 3%nat = Some sj →
               ¬ stop_issued sj.
Proof.
  destruct (C4_stop_issued_exactly_on_emptying_call
              [ex_event ex_session_running; ex_event ex_session_done;
               ex_event ex_session_done; ex_event ex_session_done]
              (ex_executor 2)) as (H1 & H2 & _ & H4).
  eexists. split; [vm_compute; reflexivity|].
  match goal with |- stop_issued ?x ∧ _ => set (s := x) end.
  assert (s ∈ exec_trace [ex_event ex_session_running;
                          ex_event ex_session_done;
                          ex_event ex_session_done;
                          ex_event ex_session_done] (ex_executor 2)) as Hin.
  { apply (list_elem_of_lookup_2 _ 2%nat). vm_compute. reflexivity. }
  assert (stop_issued s) as Hstop.
  { apply (H1 s Hin). split; [|vm_compute; reflexivity].
    intros Heq. apply (f_equal (λ w, w !! "d")) in Heq.
    vm_compute in Heq. discriminate. }
  split; [exact Hstop|]. split.
  - apply (H2 s Hin Hstop). vm_compute. eexists. reflexivity.
  - intros sj Hj.
    apply (H4 2%nat 3%nat s sj); [vm_compute; reflexivity|exact Hj|exact Hstop|lia].
Defined.

(** ** Counting runs down *)




(** ** Reset *)

(** C6: whatever the watch set was before, [reset] with the same ids
    yields the same executor: one entry per id, with the configured run
    count and an empty run cache, and nothing else; doing it twice is the
    same as doing it once. *)
Theorem C6_reset_rebuilds_watch_set ids self w d :
  reset ids (set_dags_to_watch w self) = reset ids self
  ∧ dags_to_watch (reset ids self) !! d
    = (if decide (d ∈ ids)
       then Some {| waiting_for := num_runs_per_dag self; runs := ∅ |}
       else None)
  ∧ num_runs_per_dag (reset ids self) = num_runs_per_dag self
  ∧ reset ids (reset ids self) = reset ids self.
Proof.
  split; [done|]. split; [apply reset_lookup|]. split; done.
Qed.

(** A reset after any sequence of calls gives back the watch set the
    sequence started from. *)
Lemma reset_after_trace ids evs self :
  dags_to_watch
    (reset ids (final_state (reset ids self)
                  (exec_trace evs (reset ids self))))
  = dags_to_watch (reset ids self).
Proof.
  assert (∀ evs self0,
            num_runs_per_dag (final_state self0 (exec_trace evs self0))
            = num_runs_per_dag self0) as Hnum.
  { refine (exec_trace_ind
              (λ self0 tr, num_runs_per_dag (final_state self0 tr)
                           = num_runs_per_dag self0) _ _).
    - done.
    - intros ev self0 evs' IH. rewrite final_state_cons, IH.
      apply step_num_runs_per_dag. }
  unfold reset at 1 3. simpl. by rewrite Hnum.
Qed.

(** ** Runs without task instances *)

(** C7: a call for a watched workflow whose run has no task instance
    counts the run as complete: the run is evicted from the cache and the
    counter lowered by one in that call. *)
Theorem C7_run_without_tasks_is_complete session key st self ns run ns1 :
  dags_to_watch self !! key_dag_id key = Some ns →
  cached_or_find session (key_dag_id key) (key_logical_date key) ns
    = Some (run, ns1) →
  get_task_instances session run = [] →
  let s := do_step {| ev_session := session; ev_key := key; ev_state := st |}
             self in
  completes (key_dag_id key) s = true
  ∧ dags_to_watch (post s) !! key_dag_id key
    = (if bool_decide (waiting_for ns - 1 = 0) then None
       else Some {| waiting_for := waiting_for ns - 1;
                    runs := delete (key_logical_date key) (runs ns) |})
  ∧ (is_Some (job_runner self) → result s = Returned).
Proof.
  intros Hns Hc Hnil s.
  assert (completes (key_dag_id key) s = true) as Hcomp.
  { unfold completes, s. rewrite do_step_pre, do_step_event. simpl.
    rewrite bool_decide_eq_true_2 by done. simpl.
    apply run_complete_true. exists ns, run, ns1.
    split; [done|]. split; [done|]. by rewrite Hnil. }
  split; [done|]. split.
  - exact (step_complete _ _ _ _ Hcomp Hns).
  - intros Hjr. by eapply step_complete_returns.
Qed.

Lemma C7_run_without_tasks_witness :
  dags_to_watch (post (do_step (ex_event ex_session_no_tasks) (ex_executor 2)))
    !! "d"
  = Some {| waiting_for := 1; runs := ∅ |}.
Proof.
  exact (proj1 (proj2
           (C7_run_without_tasks_is_complete ex_session_no_tasks ex_key SUCCESS
              (ex_executor 2) {| waiting_for := 2; runs := ∅ |} ex_run
              {| waiting_for := 2; runs := <[10 := ex_run]> ∅ |}
              eq_refl eq_refl eq_refl))).
Defined.

(** ** A target of zero runs *)

(** C10: with a configured run count of zero every entry starts at zero;
    in every sequence of calls each watched workflow stays in the watch set
    with a counter at or below zero, no call issues the stop instruction,
    and (given at least one workflow) the watch set is never empty.  In
    general a workflow leaves the watch set only in a call that lowers its
    counter from one to zero. *)
Theorem C10_zero_target_never_stops ids evs self :
  num_runs_per_dag self = 0 →
  let tr := exec_trace evs (reset ids self) in
  (∀ d, d ∈ ids →
     dags_to_watch (reset ids self) !! d
     = Some {| waiting_for := 0; runs := ∅ |})
  ∧ (∀ s d, s ∈ tr → d ∈ ids →
       ∃ ns, dags_to_watch (post s) !! d = Some ns ∧ waiting_for ns ≤ 0)
  ∧ (∀ s, s ∈ tr → ¬ stop_issued s ∧ job_runner (post s) = job_runner self)
  ∧ (ids ≠ [] → ∀ s, s ∈ tr → dags_to_watch (post s) ≠ ∅)
  ∧ (∀ ev self0 d ns,
       dags_to_watch self0 !! d = Some ns →
       dags_to_watch (post (do_step ev self0)) !! d = None →
       completes d (do_step ev self0) = true ∧ waiting_for ns = 1).
Proof.
  intros Hzero tr.
  assert (∀ d, d ∈ ids →
            dags_to_watch (reset ids self) !! d
            = Some {| waiting_for := 0; runs := ∅ |}) as Hstart.
  { intros d Hin. rewrite reset_lookup, decide_True by done.
    by rewrite Hzero. }
  assert (nonpositive (reset ids self)) as Hinv.
  { intros d ns. rewrite reset_lookup. case_decide; [|done].
    intros [= <-]. simpl. lia. }
  assert (∀ s d, s ∈ tr → d ∈ ids →
            ∃ ns, dags_to_watch (post s) !! d = Some ns ∧ waiting_for ns ≤ 0)
    as Hstay.
  { intros s d Hs Hd.
    destruct (exec_trace_nonpositive evs _ Hinv s Hs) as (Hnp & Hdom & _).
    destruct (Hdom d) as [ns Hns]; [by rewrite Hstart|].
    exists ns. split; [done|]. by eapply Hnp. }
  split; [done|]. split; [done|]. split; [|split].
  - assert (∀ evs0 self0, nonpositive self0 →
              ∀ s, s ∈ exec_trace evs0 self0 →
                job_runner (post s) = job_runner self0) as Hjr.
    { refine (exec_trace_ind
                (λ self0 tr0, nonpositive self0 → ∀ s, s ∈ tr0 →
                   job_runner (post s) = job_runner self0) _ _).
      - by intros self0 _ s ?%elem_of_nil.
      - intros ev self0 evs' IH Hnp s Hs.
        destruct (step_nonpositive ev self0 Hnp) as (Hnp' & _ & Hns).
        apply elem_of_cons in Hs as [->|Hs].
        + by apply step_job_runner_keep.
        + rewrite (IH Hnp' s Hs). by apply step_job_runner_keep. }
    intros s Hs. split.
    + by destruct (exec_trace_nonpositive evs _ Hinv s Hs) as (_ & _ & ?).
    + by rewrite (Hjr evs _ Hinv s Hs).
  - intros Hne s Hs. destruct ids as [|d ids']; [done|].
    destruct (Hstay s d Hs) as (ns & Hns & _); [by apply elem_of_cons; left|].
    by eapply lookup_Some_non_empty.
  - intros ev self0 d ns. apply step_removed.
Qed.

Lemma C10_zero_target_witness :
  ∃ ns, dags_to_watch
          (post (do_step (ex_event ex_session_done) (ex_executor 0))) !! "d"
        = Some ns
        ∧ waiting_for ns ≤ 0.
Proof.
  destruct (C10_zero_target_never_stops ["d"] [ex_event ex_session_done]
              (ex_executor 0) eq_refl) as (_ & H2 & _).
  apply (H2 (do_step (ex_event ex_session_done) (ex_executor 0)) "d").
  - apply (list_elem_of_lookup_2 _ 0%nat). vm_compute. reflexivity.
  - apply list_elem_of_singleton. reflexivity.
Defined.

(** ** The wipe of a workflow's runs *)

(** C9 (as stated, refuted): all DAGs are paused, then ["d"] is wiped;
    its row is not paused afterwards. *)
Lemma C9_reset_dag_leaves_dag_unpaused :
  dag_model_rows (pause_all_dags ex_session_done)
  = [ {| dm_dag_id := "d"; is_paused := true |} ]
  ∧ ¬ (∀ m, m ∈ dag_model_rows
                  (reset_dag (ex_dag (Some 10))
                     (pause_all_dags ex_session_done)) →
            dm_dag_id m = "d" → is_paused m = true).
Proof.
  split; [done|]. intros H.
  specialize (H {| dm_dag_id := "d"; is_paused := false |}).
  assert (false = true) as Hf; [|discriminate].
  apply H; [|done]. vm_compute. constructor.
Qed.

(** C9 (amended): [reset_dag] deletes the runs and the task instances of
    the DAG and clears its paused flag; it leaves the rows of other DAGs
    as they are and adds or removes no DAG row. *)
Theorem C9_reset_dag_wipes_and_unpauses dag session :
  let session' := reset_dag dag session in
  (∀ r, r ∈ dag_run_rows session' → dr_dag_id r ≠ dag_id dag)
  ∧ (∀ t, t ∈ task_instance_rows session' → ti_dag_id t ≠ dag_id dag)
  ∧ (∀ logical_date, DagRun_find session' (dag_id dag) logical_date = [])
  ∧ (∀ m, m ∈ dag_model_rows session' →
          dm_dag_id m = dag_id dag → is_paused m = false)
  ∧ dm_dag_id <$> dag_model_rows session' = dm_dag_id <$> dag_model_rows session
  ∧ (∀ m, dm_dag_id m ≠ dag_id dag →
          m ∈ dag_model_rows session' ↔ m ∈ dag_model_rows session)
  ∧ (∀ r, dr_dag_id r ≠ dag_id dag →
          r ∈ dag_run_rows session' ↔ r ∈ dag_run_rows session)
  ∧ (∀ t, ti_dag_id t ≠ dag_id dag →
          t ∈ task_instance_rows session' ↔ t ∈ task_instance_rows session).
Proof.
  intros session'. unfold session', reset_dag. simpl.
  assert (∀ r, r ∈ filter (λ r, dr_dag_id r ≠ dag_id dag) (dag_run_rows session)
               → dr_dag_id r ≠ dag_id dag) as Hruns.
  { intros r Hr. by apply list_elem_of_filter in Hr as [? _]. }
  split; [done|]. split.
  { intros t Ht. by apply list_elem_of_filter in Ht as [? _]. }
  split.
  { intros ld. unfold DagRun_find. simpl.
    apply elem_of_nil_inv. intros r Hr.
    apply list_elem_of_filter in Hr as [[Hid _] Hr].
    by apply Hruns in Hr. }
  split.
  { intros m Hm Hid. apply list_elem_of_fmap in Hm as (m0 & -> & Hm0).
    case_decide; [done|]. done. }
  split.
  { induction (dag_model_rows session) as [|m ms IH]; [done|].
    cbn [map fmap list_fmap]. f_equal; [|exact IH]. by case_decide. }
  split.
  { intros m Hne. split.
    - intros Hm. apply list_elem_of_fmap in Hm as (m0 & -> & Hm0).
      case_decide as Hid; [|done]. simpl in Hne. done.
    - intros Hm. apply list_elem_of_fmap. exists m. split; [|done].
      by rewrite decide_False. }
  split.
  { intros r Hne. rewrite list_elem_of_filter.
    split; [by intros [_ ?] | by intros ?; split]. }
  intros t Hne. rewrite list_elem_of_filter.
  split; [by intros [_ ?] | by intros ?; split].
Qed.

Lemma C9_reset_dag_witness :
  {| dm_dag_id := "d"; is_paused := false |}
    ∈ dag_model_rows (reset_dag (ex_dag (Some 10))
                        (pause_all_dags ex_session_done))
  ∧ is_paused {| dm_dag_id := "d"; is_paused := false |} = false.
Proof.
  assert ({| dm_dag_id := "d"; is_paused := false |}
            ∈ dag_model_rows (reset_dag (ex_dag (Some 10))
                                (pause_all_dags ex_session_done))) as Hin
    by (vm_compute; constructor).
  split; [exact Hin|].
  destruct (C9_reset_dag_wipes_and_unpauses (ex_dag (Some 10))
              (pause_all_dags ex_session_done)) as (_ & _ & _ & H & _).
  apply (H _ Hin). reflexivity.
Defined.

(** ** The driver *)

Section DriverProperties.

Variable isoformat : datetime → string.
Variable str_datetime : datetime → string.
Variable sync_to_db : DAG → Session → Session.
Variable load_executor : string → outcome.
Variable default_num_runs : Z.
Variable run_job :
  JobRunner → Executor → Session → outcome * JobRunner * Executor * Session * Z.
Variable create_dagrun :
  DAG → string → datetime → datetime * datetime → datetime →
  DagRunType.t → DagRunTriggeredByType.t → DagRunState.t →
  Session → outcome * Session.

Local Abbreviation setup_dag' :=
  (setup_dag isoformat str_datetime sync_to_db create_dagrun).
Local Abbreviation setup_dags' :=
  (setup_dags isoformat str_datetime sync_to_db create_dagrun).
Local Abbreviation main' :=
  (main isoformat str_datetime sync_to_db load_executor default_num_runs
     run_job create_dagrun).









(** After the first, a trial is a timed run on whatever the trial before
    it left: the session, the executor and the job runner are not reset. *)
Lemma trial_after_first dags dag_ids count w :
  count ≠ 0%nat →
  trial default_num_runs run_job dags dag_ids count w = timed_run run_job w.
Proof. intros Hc. unfold trial. by rewrite bool_decide_eq_false_2. Qed.

Lemma trial_first dags dag_ids w :
  trial default_num_runs run_job dags dag_ids 0 w
  = timed_run run_job (reset_for_trial default_num_runs dags dag_ids w).
Proof. done. Qed.

End DriverProperties.



(** C3 (violated by the code): two trials of the example.  The first
    trial starts from a reset tracker and a database without runs; the
    second is handed the empty watch set and the run the first trial left
    behind: nothing was reset before it. *)
Theorem C3_second_trial_is_not_reset :
  exit (ex_main (Some 10) 2) = Returned
  ∧ measured (ex_main (Some 10) 2) = [7; 7]
  ∧ (λ '(_, executor, session),
       (map_to_list (dags_to_watch executor), dag_run_rows session))
      <$> trial_calls (ex_main (Some 10) 2)
    = [ ([("d", {| waiting_for := 1; runs := ∅ |})], []);
        ([], [ex_run]) ].
Proof. split; [by vm_compute|]. split; by vm_compute. Qed.

(** * Further properties *)

(** ** One call of [change_state] *)

(** X1: every call hands the notification to the base executor, whatever
    happens afterwards (also when it raises), and no call changes the
    configured run count. *)
Theorem X1_every_call_is_forwarded ev self :
  event_buffer (post (do_step ev self))
  = event_buffer self ++ [(ev_key ev, ev_state ev)]
  ∧ num_runs_per_dag (post (do_step ev self)) = num_runs_per_dag self.
Proof. step_cases ev self; done. Qed.

(** X2: when the run is in the cache, the call does not look at the table
    of runs: its whole result is the same for any two databases with the
    same task instances, and it does not raise [IndexError]. *)
Theorem X2_cached_run_is_not_looked_up session session' key st self ns run :
  dags_to_watch self !! key_dag_id key = Some ns →
  runs ns !! key_logical_date key = Some run →
  task_instance_rows session = task_instance_rows session' →
  change_state session key st self = change_state session' key st self
  ∧ fst (fst (change_state session key st self)) ≠ Raised IndexError.
Proof.
  destruct key as [[[d t] ld] tn]. simpl. intros Hd Hc Hti.
  unfold change_state. simpl. rewrite Hd. unfold cached_or_find. rewrite Hc.
  unfold get_task_instances. rewrite Hti. split; [done|].
  destruct (all_success _); [|done].
  case_bool_decide; [|done]. by destruct (job_runner self).
Qed.

Lemma X2_cached_run_witness :
  change_state ex_session_no_run ex_key SUCCESS
    (post (do_step (ex_event ex_session_running) (ex_executor 1)))
  = change_state ex_session_no_tasks ex_key SUCCESS
      (post (do_step (ex_event ex_session_running) (ex_executor 1))).
Proof.
  exact (proj1 (X2_cached_run_is_not_looked_up ex_session_no_run
                  ex_session_no_tasks ex_key SUCCESS
                  (post (do_step (ex_event ex_session_running) (ex_executor 1)))
                  {| waiting_for := 1; runs := <[10 := ex_run]> ∅ |} ex_run
                  eq_refl eq_refl eq_refl)).
Defined.

(** X3: a call that finds the run in the database but not all of its
    tasks succeeded returns normally, keeps the counter and leaves the run
    in the cache under its logical date. *)
Theorem X3_incomplete_run_is_cached session key st self ns run rest :
  dags_to_watch self !! key_dag_id key = Some ns →
  runs ns !! key_logical_date key = None →
  DagRun_find session (key_dag_id key) (key_logical_date key) = run :: rest →
  all_success (get_task_instances session run) = false →
  let s := do_step {| ev_session := session; ev_key := key; ev_state := st |}
             self in
  result s = Returned
  ∧ dags_to_watch (post s) !! key_dag_id key
    = Some {| waiting_for := waiting_for ns;
              runs := <[key_logical_date key := run]> (runs ns) |}
  ∧ logged s = [WAITING_ON (total_waiting (dags_to_watch (post s)))].
Proof.
  intros Hd Hc Hf Ha s.
  assert (cached_or_find session (key_dag_id key) (key_logical_date key) ns
          = Some (run, {| waiting_for := waiting_for ns;
                          runs := <[key_logical_date key := run]> (runs ns) |}))
    as Hcf by (unfold cached_or_find; by rewrite Hc, Hf).
  pose proof (change_state_incomplete _ _ st _ _ _ _ Hd Hcf Ha) as Hcs.
  unfold s, do_step. simpl. rewrite Hcs. simpl.
  by rewrite lookup_insert_eq.
Qed.

Lemma X3_incomplete_run_witness :
  dags_to_watch (post (do_step (ex_event ex_session_running) (ex_executor 1)))
    !! "d"
  = Some {| waiting_for := 1; runs := <[10 := ex_run]> ∅ |}.
Proof.
  exact (proj1 (proj2
           (X3_incomplete_run_is_cached ex_session_running ex_key SUCCESS
              (ex_executor 1) {| waiting_for := 1; runs := ∅ |} ex_run []
              eq_refl eq_refl eq_refl eq_refl))).
Defined.

(** X4: the only exceptions of [change_state].  It raises [IndexError]
    exactly when the workflow is watched, the run is not cached and the
    lookup finds no run; it raises [AttributeError] exactly when the call
    empties the watch set while the executor has no job runner; it raises
    nothing else.  After [IndexError] the watch set is as before. *)
Theorem X4_exceptions_of_change_state ev self :
  let s := do_step ev self in
  let d := key_dag_id (ev_key ev) in
  let ld := key_logical_date (ev_key ev) in
  (result s = Raised IndexError ↔
   ∃ ns, dags_to_watch self !! d = Some ns ∧ runs ns !! ld = None
         ∧ DagRun_find (ev_session ev) d ld = [])
  ∧ (result s = Raised AttributeError ↔
     stop_issued s ∧ job_runner self = None)
  ∧ (result s = Returned ∨ result s = Raised IndexError
     ∨ result s = Raised AttributeError)
  ∧ (result s = Raised IndexError →
     dags_to_watch (post s) = dags_to_watch self ∧ logged s = []).
Proof.
  intros s d ld. unfold s, d, ld, stop_issued.
  assert (∀ ns, cached_or_find (ev_session ev) (key_dag_id (ev_key ev))
                  (key_logical_date (ev_key ev)) ns = None ↔
                runs ns !! key_logical_date (ev_key ev) = None
                ∧ DagRun_find (ev_session ev) (key_dag_id (ev_key ev))
                    (key_logical_date (ev_key ev)) = []) as Hcf.
  { intros ns. unfold cached_or_find.
    destruct (runs ns !! _); [split; [done | by intros [? _]]|].
    destruct (DagRun_find _ _ _);
      [by split | split; [done | by intros [_ ?]]]. }
  step_cases ev self.
  - split; [|split; [|split]]; try done.
    + split; [done|]. intros (ns & Hns & _). congruence.
    + split; [done|]. by intros [?%stop_not_in_nil _].
    + by left.
  - split; [|split; [|split]]; try done.
    + split; [|done]. intros _. exists ns0. by apply Hcf in Hc as [? ?].
    + split; [done|]. by intros [?%stop_not_in_nil _].
    + right. by left.
  - split; [|split; [|split]]; try done.
    + split; [done|]. intros (ns & Hns & Hr & Hf).
      assert (ns = ns0) as -> by congruence.
      assert (cached_or_find (ev_session ev) (key_dag_id (ev_key ev))
                (key_logical_date (ev_key ev)) ns0 = None) as Hn
        by (by apply Hcf). congruence.
    + split; [done|]. by intros [?%stop_not_in_waiting _].
    + by left.
  - split; [|split; [|split]]; try done.
    + split; [done|]. intros (ns & Hns & Hr & Hf).
      assert (ns = ns0) as -> by congruence.
      assert (cached_or_find (ev_session ev) (key_dag_id (ev_key ev))
                (key_logical_date (ev_key ev)) ns0 = None) as Hn
        by (by apply Hcf). congruence.
    + split; [done|]. by intros [_ ?].
    + by left.
  - split; [|split; [|split]]; try done.
    + split; [done|]. intros (ns & Hns & Hr & Hf).
      assert (ns = ns0) as -> by congruence.
      assert (cached_or_find (ev_session ev) (key_dag_id (ev_key ev))
                (key_logical_date (ev_key ev)) ns0 = None) as Hn
        by (by apply Hcf). congruence.
    + split; [|done]. intros _. split; [apply stop_in_stopping|done].
    + right. by right.
  - split; [|split; [|split]]; try done.
    + split; [done|]. intros (ns & Hns & Hr & Hf).
      assert (ns = ns0) as -> by congruence.
      assert (cached_or_find (ev_session ev) (key_dag_id (ev_key ev))
                (key_logical_date (ev_key ev)) ns0 = None) as Hn
        by (by apply Hcf). congruence.
    + split; [done|]. by intros [?%stop_not_in_waiting _].
    + by left.
Qed.

Lemma step_frame ev self :
  delete (key_dag_id (ev_key ev)) (dags_to_watch (post (do_step ev self)))
  = delete (key_dag_id (ev_key ev)) (dags_to_watch self).
Proof.
  step_cases ev self; try done.
  - by rewrite delete_insert_eq.
  - rewrite He, delete_empty. unfold watch_after_completion in He.
    case_bool_decide; [done|]. by apply insert_non_empty in He.
  - rewrite He, delete_empty. unfold watch_after_completion in He.
    case_bool_decide; [done|]. by apply insert_non_empty in He.
  - unfold watch_after_completion.
    case_bool_decide; [by rewrite delete_delete_eq|by rewrite delete_insert_eq].
Qed.

(** X5: a call touches the entry of its own workflow only. *)
Theorem X5_other_workflows_are_untouched ev self :
  delete (key_dag_id (ev_key ev)) (dags_to_watch (post (do_step ev self)))
  = delete (key_dag_id (ev_key ev)) (dags_to_watch self).
Proof. apply step_frame. Qed.

(** X6: the stop instruction is issued only by a call that counts the
    last outstanding run of the only workflow left in the watch set. *)
Theorem X6_stop_comes_from_the_last_run ev self :
  stop_issued (do_step ev self) →
  ∃ ns, dags_to_watch self = {[ key_dag_id (ev_key ev) := ns ]}
        ∧ waiting_for ns = 1
        ∧ run_complete (ev_session ev) (ev_key ev) self = true.
Proof.
  intros Hs. pose proof Hs as [Hne He]%step_stop_iff.
  pose proof (step_frame ev self) as Hfr.
  rewrite He, delete_empty in Hfr.
  destruct (dags_to_watch self !! key_dag_id (ev_key ev)) as [ns|] eqn:Hd.
  - exists ns.
    assert (dags_to_watch (post (do_step ev self)) !! key_dag_id (ev_key ev)
            = None) as Hp by (by rewrite He, lookup_empty).
    destruct (step_removed _ _ _ _ Hd Hp) as [Hc Hw].
    split; [|split; [done|]].
    + apply map_eq. intros d'. destruct (decide (d' = key_dag_id (ev_key ev)))
        as [->|Hd'].
      * by rewrite lookup_singleton_eq.
      * rewrite lookup_singleton_ne by done.
        apply (f_equal (λ w, w !! d')) in Hfr.
        by rewrite lookup_empty, lookup_delete_ne in Hfr.
    + unfold completes in Hc. rewrite do_step_pre, do_step_event in Hc.
      by apply andb_true_iff in Hc as [_ ?].
  - destruct Hne. rewrite <- (delete_id _ _ Hd). by rewrite <- Hfr.
Qed.

Lemma X6_stop_witness :
  ∃ ns, dags_to_watch (ex_executor 1) = {[ "d" := ns ]}
        ∧ waiting_for ns = 1
        ∧ run_complete ex_session_done ex_key (ex_executor 1) = true.
Proof.
  apply (X6_stop_comes_from_the_last_run (ex_event ex_session_done)
           (ex_executor 1)).
  vm_compute. constructor.
Defined.

(** *** The total of the counters *)

Lemma total_waiting_empty : total_waiting ∅ = 0.
Proof. unfold total_waiting. by rewrite map_fold_empty. Qed.

Lemma total_waiting_insert_fresh d ns (w : gmap string Namespace) :
  w !! d = None →
  total_waiting (<[d := ns]> w) = waiting_for ns + total_waiting w.
Proof.
  intros Hn. unfold total_waiting.
  rewrite map_fold_insert_L; [done| |done].
  intros. lia.
Qed.

Lemma total_waiting_lookup d ns (w : gmap string Namespace) :
  w !! d = Some ns →
  total_waiting w = waiting_for ns + total_waiting (delete d w).
Proof.
  intros Hs. rewrite <- (insert_delete_id w d ns Hs) at 1.
  apply total_waiting_insert_fresh, lookup_delete_eq.
Qed.

Lemma total_waiting_insert d ns ns' (w : gmap string Namespace) :
  w !! d = Some ns →
  total_waiting (<[d := ns']> w)
  = total_waiting w - waiting_for ns + waiting_for ns'.
Proof.
  intros Hs. rewrite (total_waiting_lookup d ns w Hs).
  rewrite <- insert_delete_eq.
  rewrite total_waiting_insert_fresh by apply lookup_delete_eq. lia.
Qed.

Lemma step_total_and_log ev self :
  let s := do_step ev self in
  total_waiting (dags_to_watch (post s))
  = total_waiting (dags_to_watch self)
    - (if run_complete (ev_session ev) (ev_key ev) self then 1 else 0)
  ∧ (logged s = [] ∨ logged s = [STOPPING_SCHEDULER]
     ∨ logged s = [WAITING_ON (total_waiting (dags_to_watch (post s)))]).
Proof.
  intros s. unfold s.
  assert (∀ ns run ns1,
            dags_to_watch self !! key_dag_id (ev_key ev) = Some ns →
            cached_or_find (ev_session ev) (key_dag_id (ev_key ev))
              (key_logical_date (ev_key ev)) ns = Some (run, ns1) →
            run_complete (ev_session ev) (ev_key ev) self
            = all_success (get_task_instances (ev_session ev) run)) as Hrc.
  { intros ns run ns1 H1 H2. unfold run_complete. by rewrite H1, H2. }
  assert (∀ ns,
            dags_to_watch self !! key_dag_id (ev_key ev) = Some ns →
            total_waiting
              (watch_after_completion (key_dag_id (ev_key ev))
                 (key_logical_date (ev_key ev)) ns (dags_to_watch self))
            = total_waiting (dags_to_watch self) - 1) as Hwac.
  { intros ns Hns. unfold watch_after_completion. case_bool_decide.
    - rewrite (total_waiting_lookup _ _ _ Hns). lia.
    - rewrite (total_waiting_insert _ _ _ _ Hns). simpl. lia. }
  step_cases ev self.
  - split; [|by left]. unfold run_complete. rewrite Hd. lia.
  - split; [|by left]. unfold run_complete. rewrite Hd, Hc. lia.
  - split; [|by right; right]. rewrite (Hrc _ _ _ Hd Hc), Ha.
    apply cached_or_find_Some in Hc as (Hw & _ & _).
    rewrite (total_waiting_insert _ _ _ _ Hd). lia.
  - split; [|by right; left]. rewrite (Hrc _ _ _ Hd Hc), Ha. by apply Hwac.
  - split; [|by right; left]. rewrite (Hrc _ _ _ Hd Hc), Ha. by apply Hwac.
  - split; [|by right; right]. rewrite (Hrc _ _ _ Hd Hc), Ha. by apply Hwac.
Qed.

(** X7: a call that counts a run lowers the total of the counters by
    exactly one, every other call leaves the total as it is; a call logs
    nothing, the stop warning, or as waiting the total it leaves. *)
Theorem X7_total_goes_down_by_one_per_run ev self :
  let s := do_step ev self in
  total_waiting (dags_to_watch (post s))
  = total_waiting (dags_to_watch self)
    - (if run_complete (ev_session ev) (ev_key ev) self then 1 else 0)
  ∧ (logged s = [] ∨ logged s = [STOPPING_SCHEDULER]
     ∨ logged s = [WAITING_ON (total_waiting (dags_to_watch (post s)))]).
Proof. apply step_total_and_log. Qed.

(** ** Sequences of calls, continued *)

Lemma counted_runs_cons s tr :
  counted_runs (s :: tr)
  = ((if counts_run s then 1 else 0) + counted_runs tr)%nat.
Proof.
  unfold counted_runs. rewrite filter_cons.
  destruct (counts_run s); by case_decide.
Qed.

Lemma exec_trace_total_waiting evs self :
  total_waiting (dags_to_watch (final_state self (exec_trace evs self)))
  = total_waiting (dags_to_watch self)
    - Z.of_nat (counted_runs (exec_trace evs self)).
Proof.
  revert evs self.
  refine (exec_trace_ind
            (λ self tr,
               total_waiting (dags_to_watch (final_state self tr))
               = total_waiting (dags_to_watch self)
                 - Z.of_nat (counted_runs tr)) _ _).
  - intros self. unfold final_state, counted_runs. simpl. lia.
  - intros ev self evs' IH.
    rewrite final_state_cons, counted_runs_cons, IH.
    destruct (step_total_and_log ev self) as [-> _].
    unfold counts_run. rewrite do_step_pre, do_step_event.
    destruct (run_complete _ _ _); lia.
Qed.

Lemma total_waiting_const R (w : gmap string Namespace) :
  (∀ d ns, w !! d = Some ns → waiting_for ns = R) →
  total_waiting w = R * Z.of_nat (size w).
Proof.
  induction w as [|d ns w Hn IH] using map_ind; intros Hall.
  - rewrite total_waiting_empty, map_size_empty. lia.
  - rewrite total_waiting_insert_fresh, map_size_insert_None by done.
    rewrite IH.
    + rewrite (Hall d ns) by apply lookup_insert_eq. lia.
    + intros d' ns' Hd'. apply (Hall d').
      rewrite lookup_insert_ne; [done|]. intros ->. congruence.
Qed.

Lemma reset_size ids self :
  size (dags_to_watch (reset ids self)) = length (remove_dups ids).
Proof.
  rewrite <- size_dom.
  assert (dom (dags_to_watch (reset ids self))
          = (list_to_set (remove_dups ids) : gset string)) as ->.
  { apply set_eq. intros d. rewrite elem_of_dom, reset_lookup.
    rewrite elem_of_list_to_set, elem_of_remove_dups.
    case_decide; [split; [done|by eexists] | split; [by intros [? ?]|done]]. }
  apply size_list_to_set, NoDup_remove_dups.
Qed.

(** X8: after [reset] the total of the counters is the configured run
    count times the number of distinct workflow ids, and after any
    sequence of calls it is that total minus the number of calls that
    counted a run - whatever the run count, also zero or negative. *)
Theorem X8_total_is_target_minus_counted_runs ids evs self :
  let start := reset ids self in
  let tr := exec_trace evs start in
  total_waiting (dags_to_watch start)
  = num_runs_per_dag self * Z.of_nat (length (remove_dups ids))
  ∧ total_waiting (dags_to_watch (final_state start tr))
    = num_runs_per_dag self * Z.of_nat (length (remove_dups ids))
      - Z.of_nat (counted_runs tr).
Proof.
  intros start tr.
  assert (total_waiting (dags_to_watch start)
          = num_runs_per_dag self * Z.of_nat (length (remove_dups ids))) as H0.
  { unfold start. rewrite <- (reset_size ids self). apply total_waiting_const.
    intros d ns. rewrite reset_lookup. case_decide; [|done].
    by intros [= <-]. }
  split; [done|]. unfold tr. by rewrite exec_trace_total_waiting, H0.
Qed.

(** *** Counters stay within bounds *)

Lemma step_counters_within hi ev self :
  counters_within hi self → counters_within hi (post (do_step ev self)).
Proof.
  intros Hinv d ns' Hp.
  destruct (step_watch_mono _ _ _ _ Hp) as (ns & Hns & Hle).
  destruct (Hinv _ _ Hns) as [Hlo Hhi]. split; [|lia].
  destruct (completes d (do_step ev self)) eqn:Hc.
  - rewrite (step_complete _ _ _ _ Hc Hns) in Hp.
    case_bool_decide; [done|]. injection Hp as <-. simpl. lia.
  - destruct (step_keep _ _ _ _ Hc Hns) as (ns2 & Hp2 & Hw). 
    rewrite Hp in Hp2. injection Hp2 as <-. lia.
Qed.

Lemma exec_trace_counters_within hi evs self :
  counters_within hi self →
  ∀ s, s ∈ exec_trace evs self → counters_within hi (post s).
Proof.
  revert evs self.
  refine (exec_trace_ind
            (λ self tr, counters_within hi self → ∀ s, s ∈ tr →
               counters_within hi (post s)) _ _).
  - by intros self _ s ?%elem_of_nil.
  - intros ev self evs' IH Hinv s [->|Hin]%elem_of_cons.
    + by apply step_counters_within.
    + apply IH; [|done]. by apply step_counters_within.
Qed.

(** X9: with a configured run count [R] of at least one, every counter in
    the watch set stays between one and [R] throughout any sequence of
    calls: a counter never shows zero or a negative number. *)
Theorem X9_counters_stay_between_one_and_target ids evs self s d ns :
  1 ≤ num_runs_per_dag self →
  s ∈ exec_trace evs (reset ids self) →
  dags_to_watch (post s) !! d = Some ns →
  1 ≤ waiting_for ns ≤ num_runs_per_dag self.
Proof.
  intros Hpos Hs Hd.
  assert (counters_within (num_runs_per_dag self) (reset ids self)) as Hinv.
  { intros d' ns'. rewrite reset_lookup. case_decide; [|done].
    intros [= <-]. simpl. lia. }
  exact (exec_trace_counters_within _ evs _ Hinv s Hs d ns Hd).
Qed.

Lemma X9_counters_witness :
  1 ≤ waiting_for {| waiting_for := 1; runs := ∅ |} ≤ 2.
Proof.
  assert (1 ≤ num_runs_per_dag (ex_executor 2)) as Hpos by (simpl; lia).
  apply (X9_counters_stay_between_one_and_target ["d"]
           [ex_event ex_session_done] (ex_executor 2)
           (do_step (ex_event ex_session_done) (reset ["d"] (ex_executor 2)))
           "d" _ Hpos).
  - apply (list_elem_of_lookup_2 _ 0%nat). vm_compute. reflexivity.
  - vm_compute. reflexivity.
Defined.

(** *** Global completion *)





(** ** The database helpers *)

Lemma filter_filter_and {A} (P Q : A → Prop)
    `{!∀ x, Decision (P x)} `{!∀ x, Decision (Q x)} (l : list A) :
  filter P (filter Q l) = filter (λ x, Q x ∧ P x) l.
Proof.
  induction l as [|x l IH]; [done|].
  rewrite !filter_cons. destruct (decide (Q x)) as [HQ|HQ].
  - rewrite filter_cons. destruct (decide (P x)) as [HP|HP].
    + rewrite decide_True by done. by rewrite IH.
    + rewrite decide_False by (by intros [_ ?]). apply IH.
  - rewrite decide_False by (by intros [? _]). apply IH.
Qed.

Lemma filter_ext_in {A} (P Q : A → Prop)
    `{!∀ x, Decision (P x)} `{!∀ x, Decision (Q x)} (l : list A) :
  (∀ x, P x ↔ Q x) → filter P l = filter Q l.
Proof.
  intros Heq. induction l as [|x l IH]; [done|].
  rewrite !filter_cons. destruct (decide (P x)) as [HP|HP].
  - rewrite decide_True by (by apply Heq). by rewrite IH.
  - rewrite decide_False by (by rewrite <- Heq). apply IH.
Qed.

Lemma reset_dags_rows dags session :
  dag_model_rows (reset_dags dags session)
  = map (λ m, if decide (dm_dag_id m ∈ dag_id <$> dags)
              then {| dm_dag_id := dm_dag_id m; is_paused := false |}
              else m)
        (dag_model_rows session)
  ∧ dag_run_rows (reset_dags dags session)
    = filter (λ r, dr_dag_id r ∉ dag_id <$> dags) (dag_run_rows session)
  ∧ task_instance_rows (reset_dags dags session)
    = filter (λ t, ti_dag_id t ∉ dag_id <$> dags) (task_instance_rows session).
Proof.
  unfold reset_dags. revert session.
  induction dags as [|dag dags IH]; intros session.
  - simpl. split; [|split].
    + symmetry. apply map_id.
    + symmetry. induction (dag_run_rows session) as [|r rs IHr]; [done|].
      rewrite filter_cons, decide_True by apply not_elem_of_nil. by f_equal.
    + symmetry. induction (task_instance_rows session) as [|t ts IHt]; [done|].
      rewrite filter_cons, decide_True by apply not_elem_of_nil. by f_equal.
  - cbn [foldl]. destruct (IH (reset_dag dag session)) as (Hm & Hr & Ht).
    split; [|split].
    + rewrite Hm. unfold reset_dag. cbn [dag_model_rows].
      rewrite map_map. apply map_ext. intros m. rewrite fmap_cons.
      destruct (decide (dm_dag_id m ∈ dag_id dag :: (dag_id <$> dags)))
        as [Hin|Hnin].
      * apply elem_of_cons in Hin.
        destruct (decide (dm_dag_id m = dag_id dag)) as [Heq|Hne]; simpl.
        -- by case_decide.
        -- destruct Hin as [?|Hin]; [done|]. by rewrite decide_True.
      * apply not_elem_of_cons in Hnin as [Hne Hnin].
        rewrite (decide_False (P := dm_dag_id m = dag_id dag)) by done.
        by rewrite decide_False.
    + rewrite Hr. unfold reset_dag. cbn [dag_run_rows].
      rewrite filter_filter_and. apply filter_ext_in. intros r.
      rewrite fmap_cons, not_elem_of_cons. done.
    + rewrite Ht. unfold reset_dag. cbn [task_instance_rows].
      rewrite filter_filter_and. apply filter_ext_in. intros t.
      rewrite fmap_cons, not_elem_of_cons. done.
Qed.

(** X11: wiping a list of DAGs, as done before the first trial, removes
    exactly the runs and task instances of those DAGs, clears the paused
    flag of exactly their rows, and leaves everything else as it is. *)
Theorem X11_wiping_touches_the_listed_dags_only dags session :
  dag_model_rows (foldl (λ session dag, reset_dag dag session) session dags)
  = map (λ m, if decide (dm_dag_id m ∈ dag_id <$> dags)
              then {| dm_dag_id := dm_dag_id m; is_paused := false |}
              else m)
        (dag_model_rows session)
  ∧ dag_run_rows (foldl (λ session dag, reset_dag dag session) session dags)
    = filter (λ r, dr_dag_id r ∉ dag_id <$> dags) (dag_run_rows session)
  ∧ task_instance_rows
      (foldl (λ session dag, reset_dag dag session) session dags)
    = filter (λ t, ti_dag_id t ∉ dag_id <$> dags) (task_instance_rows session).
Proof. apply reset_dags_rows. Qed.

Lemma session_eq s1 s2 :
  dag_model_rows s1 = dag_model_rows s2 →
  dag_run_rows s1 = dag_run_rows s2 →
  task_instance_rows s1 = task_instance_rows s2 →
  s1 = s2.
Proof. destruct s1, s2. simpl. by intros -> -> ->. Qed.

(** X12: wiping a DAG twice is the same as wiping it once, and the order
    in which two DAGs are wiped does not matter. *)
Theorem X12_reset_dag_idempotent_and_commutative dag1 dag2 session :
  reset_dag dag1 (reset_dag dag1 session) = reset_dag dag1 session
  ∧ reset_dag dag1 (reset_dag dag2 session)
    = reset_dag dag2 (reset_dag dag1 session).
Proof.
  destruct (reset_dags_rows [dag1; dag1] session) as (Hm11 & Hr11 & Ht11).
  destruct (reset_dags_rows [dag1] session) as (Hm1 & Hr1 & Ht1).
  destruct (reset_dags_rows [dag2; dag1] session) as (Hm21 & Hr21 & Ht21).
  destruct (reset_dags_rows [dag1; dag2] session) as (Hm12 & Hr12 & Ht12).
  unfold reset_dags in *. cbn [foldl] in *.
  assert (∀ x : string, x ∈ dag_id <$> [dag1; dag1] ↔ x ∈ dag_id <$> [dag1])
    as H11.
  { intros x. cbn [fmap list_fmap]. rewrite !elem_of_cons, elem_of_nil. tauto. }
  assert (∀ x : string,
            x ∈ dag_id <$> [dag2; dag1] ↔ x ∈ dag_id <$> [dag1; dag2]) as H21.
  { intros x. cbn [fmap list_fmap]. rewrite !elem_of_cons, elem_of_nil. tauto. }
  split; apply session_eq.
  - rewrite Hm11, Hm1. apply map_ext. intros m.
    destruct (decide (dm_dag_id m ∈ dag_id <$> [dag1])) as [Hin|Hnin].
    + by rewrite decide_True by (by apply H11).
    + by rewrite decide_False by (by rewrite H11).
  - rewrite Hr11, Hr1. apply filter_ext_in. intros r. by rewrite H11.
  - rewrite Ht11, Ht1. apply filter_ext_in. intros t. by rewrite H11.
  - rewrite Hm21, Hm12. apply map_ext. intros m.
    destruct (decide (dm_dag_id m ∈ dag_id <$> [dag1; dag2])) as [Hin|Hnin].
    + by rewrite decide_True by (by apply H21).
    + by rewrite decide_False by (by rewrite H21).
  - rewrite Hr21, Hr12. apply filter_ext_in. intros r. by rewrite H21.
  - rewrite Ht21, Ht12. apply filter_ext_in. intros t. by rewrite H21.
Qed.

(** X13: [pause_all_dags] pauses every DAG and touches nothing else;
    wiping a list of DAGs after it leaves exactly the DAGs of the list
    unpaused. *)
Theorem X13_pause_all_then_wipe dags session :
  dag_run_rows (pause_all_dags session) = dag_run_rows session
  ∧ task_instance_rows (pause_all_dags session) = task_instance_rows session
  ∧ dag_model_rows (pause_all_dags session)
    = map (λ m, {| dm_dag_id := dm_dag_id m; is_paused := true |})
          (dag_model_rows session)
  ∧ dag_model_rows
      (foldl (λ session dag, reset_dag dag session)
         (pause_all_dags session) dags)
    = map (λ m, {| dm_dag_id := dm_dag_id m;
                   is_paused := bool_decide (dm_dag_id m ∉ dag_id <$> dags) |})
          (dag_model_rows session).
Proof.
  split; [done|]. split; [done|]. split; [done|].
  destruct (reset_dags_rows dags (pause_all_dags session)) as (Hm & _ & _).
  unfold reset_dags in Hm. rewrite Hm. unfold pause_all_dags. simpl.
  rewrite map_map. apply map_ext. intros m. simpl.
  case_decide.
  - by rewrite bool_decide_eq_false_2 by (by intros ?).
  - by rewrite bool_decide_eq_true_2.
Qed.

(** ** Pre-creating runs *)

Section CreateDagRuns.

Variable isoformat : datetime → string.
Variable create_dagrun :
  DAG → string → datetime → datetime * datetime → datetime →
  DagRunType.t → DagRunTriggeredByType.t → DagRunState.t →
  Session → outcome * Session.


(** X16: with a run count of zero or less [create_dag_runs] creates
    nothing and returns normally, and with a run count of one or less the
    validation of [main] compares the end date with the first run of the
    schedule. *)
Theorem X16_run_counts_below_one dag num_runs session :
  (num_runs ≤ 0 →
   create_dag_runs isoformat create_dagrun dag num_runs session
   = (Returned, session))
  ∧ (num_runs ≤ 1 → last_run_info dag num_runs = next_dagrun_info dag None).
Proof.
  split.
  - intros Hn. unfold create_dag_runs.
    replace (Z.to_nat num_runs) with 0%nat by lia. done.
  - intros Hn. unfold last_run_info.
    replace (Z.to_nat (num_runs - 1)) with 0%nat by lia.
    by destruct (next_dagrun_info dag None).
Qed.

End CreateDagRuns.


Lemma X16_run_counts_witness :
  create_dag_runs ex_str_datetime ex_create_dagrun (ex_dag (Some 10)) 0
    ex_session_done
  = (Returned, ex_session_done)
  ∧ last_run_info (ex_dag (Some 10)) 0
    = Some {| logical_date := 10; data_interval := (10, 10) |}.
Proof.
  assert (0 ≤ 0) as H0 by lia. assert (0 ≤ 1) as H1 by lia.
  destruct (X16_run_counts_below_one ex_str_datetime ex_create_dagrun
              (ex_dag (Some 10)) 0 ex_session_done) as [Ha Hb].
  split; [exact (Ha H0)|exact (Hb H1)].
Defined.

(** ** main *)

Section MainProperties.

Variable isoformat : datetime → string.
Variable str_datetime : datetime → string.
Variable sync_to_db : DAG → Session → Session.
Variable load_executor : string → outcome.
Variable default_num_runs : Z.
Variable run_job :
  JobRunner → Executor → Session → outcome * JobRunner * Executor * Session * Z.
Variable create_dagrun :
  DAG → string → datetime → datetime * datetime → datetime →
  DagRunType.t → DagRunTriggeredByType.t → DagRunState.t →
  Session → outcome * Session.

Local Abbreviation setup_dag' :=
  (setup_dag isoformat str_datetime sync_to_db create_dagrun).
Local Abbreviation setup_dags' :=
  (setup_dags isoformat str_datetime sync_to_db create_dagrun).
Local Abbreviation trials' := (trials default_num_runs run_job).
Local Abbreviation main' :=
  (main isoformat str_datetime sync_to_db load_executor default_num_runs
     run_job create_dagrun).

Lemma setup_dag_Returned dagbag num_runs pre_create d session dags acc' :
  setup_dag' dagbag num_runs pre_create d (session, dags) = (Returned, acc') →
  ∃ dag, snd acc' = dags ++ [dag] ∧ validated dagbag num_runs d dag.
Proof.
  unfold setup_dag, validated.
  destruct (dagbag d) as [dag|] eqn:Hbag; [|done].
  destruct (last_run_info dag num_runs) as [info|] eqn:Hinfo; [|done].
  case_bool_decide as Hne; [done|].
  assert (configured_end_date dag = Some (logical_date info)) as Heq.
  { destruct (decide (configured_end_date dag = Some (logical_date info)));
      [done|by destruct Hne]. }
  intros Hs. exists dag. split; [|split; [done|by exists info]].
  destruct pre_create.
  - destruct (create_dag_runs _ _ _ _ _) as [res s']. by injection Hs as _ <-.
  - by injection Hs as <-.
Qed.

Lemma setup_dags_Returned dagbag num_runs pre_create ids :
  ∀ session dags acc',
    setup_dags' dagbag num_runs pre_create ids (session, dags)
      = (Returned, acc') →
    ∃ new, snd acc' = dags ++ new
           ∧ Forall2 (validated dagbag num_runs) ids new.
Proof.
  induction ids as [|d ids IH]; intros session dags acc' Hs.
  - injection Hs as <-. exists []. by rewrite app_nil_r.
  - cbn [setup_dags] in Hs.
    destruct (setup_dag' dagbag num_runs pre_create d (session, dags))
      as [[|e] [session1 dags1]] eqn:H1; [|done].
    apply setup_dag_Returned in H1 as (dag & Hd1 & Hv). simpl in Hd1. subst.
    apply IH in Hs as (new & Hnew & Hall).
    exists (dag :: new). split; [by rewrite <- app_assoc in Hnew|].
    by constructor.
Qed.

(** X17: when the setup loop of [main] returns, every workflow id was
    found in the DagBag, the list [dags] holds the DAGs in the order of the
    ids, and for each of them the configured end date is the logical date
    of the run computed for it. *)
Theorem X17_setup_validates_every_dag dagbag num_runs pre_create ids
    session session' dags :
  setup_dags' dagbag num_runs pre_create ids (session, [])
    = (Returned, (session', dags)) →
  Forall2 (validated dagbag num_runs) ids dags.
Proof.
  intros Hs. apply setup_dags_Returned in Hs as (new & Hnew & Hall).
  simpl in Hnew. by subst.
Qed.

(** X18: with the executor class ["MockExecutor"] (the default of the
    option), [main] never runs a trial: when the setup returns it ends
    with [UnboundLocalError], otherwise with the exception of the setup. *)
Theorem X18_MockExecutor_never_runs_a_trial num_runs repeat pre_create
    dag_ids dagbag session :
  let r := main' num_runs repeat pre_create "MockExecutor" dag_ids dagbag
             session in
  trial_calls r = [] ∧ measured r = []
  ∧ exit r
    = match fst (setup_dags' dagbag num_runs pre_create dag_ids
                   (pause_all_dags session, [])) with
      | Returned => Raised UnboundLocalError
      | Raised e => Raised e
      end.
Proof.
  intros r. unfold r, main.
  destruct (setup_dags' dagbag num_runs pre_create dag_ids
              (pause_all_dags session, [])) as [[|e] [session1 dags]]; done.
Qed.

(** X19: with a repeat count of zero or less [main] runs no trial and
    cannot end normally: when the setup returns and the executor class
    loads, it ends with the [IndexError] of reading [times[0]]. *)
Theorem X19_no_repeat_ends_with_IndexError num_runs repeat pre_create
    executor_class dag_ids dagbag session :
  repeat ≤ 0 →
  let r := main' num_runs repeat pre_create executor_class dag_ids dagbag
             session in
  trial_calls r = [] ∧ measured r = []
  ∧ exit r
    = match fst (setup_dags' dagbag num_runs pre_create dag_ids
                   (pause_all_dags session, [])) with
      | Returned =>
          match get_executor_under_test load_executor executor_class with
          | Returned => Raised IndexError
          | Raised e => Raised e
          end
      | Raised e => Raised e
      end.
Proof.
  intros Hr r. unfold r, main.
  replace (Z.to_nat repeat) with 0%nat by lia.
  destruct (setup_dags' dagbag num_runs pre_create dag_ids
              (pause_all_dags session, [])) as [[|e] [session1 dags]];
    [|done].
  simpl. by destruct (get_executor_under_test load_executor executor_class).
Qed.

Lemma timed_run_accounting w res w' :
  timed_run run_job w = (res, w') →
  length (calls w') = S (length (calls w))
  ∧ length (times w')
    = (length (times w) + if res is Returned then 1 else 0)%nat.
Proof.
  unfold timed_run.
  destruct (run_job _ _ _) as [[[[res0 jr] ex] se] elapsed].
  intros [= <- <-]. simpl. rewrite length_app. simpl.
  split; [lia|]. destruct res0; [rewrite length_app; simpl|]; lia.
Qed.

Lemma trials_accounting dags dag_ids counts :
  ∀ w res w',
    trials' dags dag_ids counts w = (res, w') →
    (length (calls w') ≤ length (calls w) + length counts)%nat
    ∧ length (times w')
      = (length (times w) + (length (calls w') - length (calls w))
         - if res is Returned then 0 else 1)%nat
    ∧ (length (calls w) + (if res is Returned then 0 else 1)
       ≤ length (calls w'))%nat
    ∧ (res = Returned →
       length (calls w') = (length (calls w) + length counts)%nat).
Proof.
  induction counts as [|count counts IH]; intros w res w' Ht.
  - injection Ht as <- <-. simpl. repeat split; lia.
  - cbn [trials] in Ht.
    destruct (trial default_num_runs run_job dags dag_ids count w)
      as [[|e] w1] eqn:H1.
    + unfold trial in H1. apply timed_run_accounting in H1 as [Hc Ht1].
      apply IH in Ht as (Ha & Hb & Hc' & Hd).
      destruct (bool_decide (count = 0%nat));
        simpl in *; (repeat split; [lia|lia|destruct res; lia|]);
        intros Hres; specialize (Hd Hres); lia.
    + injection Ht as <- <-.
      unfold trial in H1. apply timed_run_accounting in H1 as [Hc Ht1].
      destruct (bool_decide (count = 0%nat));
        simpl in *; repeat split; try lia; done.
Qed.

Lemma timed_run_record w res w' :
  timed_run run_job w = (res, w') →
  calls w' = calls w ++ [(d_job_runner w, d_executor w, d_session w)]
  ∧ times w'
    = times w
        ++ omap (recorded run_job)
             [(d_job_runner w, d_executor w, d_session w)]
  ∧ (res = Returned ↔
     is_Some (recorded run_job (d_job_runner w, d_executor w, d_session w))).
Proof.
  unfold timed_run, recorded. cbn [omap list_omap].
  destruct (run_job _ _ _) as [[[[res0 jr] ex] se] elapsed].
  intros [= <- <-]. simpl. destruct res0; simpl.
  - split; [done|]. split; [done|]. split; [by eexists|done].
  - split; [done|]. split; [by rewrite app_nil_r|].
    split; [done|by intros [? ?]].
Qed.

Lemma trials_record dags dag_ids counts :
  ∀ w res w',
    trials' dags dag_ids counts w = (res, w') →
    ∃ new,
      calls w' = calls w ++ new
      ∧ times w' = times w ++ omap (recorded run_job) new
      ∧ (∀ i a, new !! i = Some a → (S i < length new)%nat →
                is_Some (recorded run_job a))
      ∧ (res = Returned →
         Forall (λ a, is_Some (recorded run_job a)) new).
Proof.
  induction counts as [|count counts IH]; intros w res w' Ht.
  - injection Ht as <- <-. exists []. rewrite !app_nil_r.
    split; [done|]. split; [done|]. split; [by intros i a ?|by constructor].
  - cbn [trials] in Ht. unfold trial in Ht.
    set (w0 := if bool_decide (count = 0%nat)
               then reset_for_trial default_num_runs dags dag_ids w
               else w) in Ht.
    assert (calls w0 = calls w ∧ times w0 = times w) as [Hc0 Ht0]
      by (unfold w0; by destruct (bool_decide (count = 0%nat))).
    destruct (timed_run run_job w0) as [res1 w1] eqn:H1.
    apply timed_run_record in H1 as (Hc1 & Ht1 & Hr1).
    rewrite Hc0 in Hc1. rewrite Ht0 in Ht1.
    set (a := (d_job_runner w0, d_executor w0, d_session w0)) in *.
    destruct res1 as [|e].
    + assert (is_Some (recorded run_job a)) as Ha by (by apply Hr1).
      apply IH in Ht as (new & Hc & Htm & Hlast & Hall).
      exists (a :: new). rewrite Hc, Hc1, Htm, Ht1, <- !app_assoc.
      split; [done|]. split.
      { f_equal. cbn [omap list_omap]. by destruct (recorded run_job a). }
      split.
      * intros [|i] a' Hi Hlen; simpl in *; [by simplify_eq|].
        apply (Hlast i); [done|lia].
      * intros Hres. constructor; [done|by apply Hall].
    + injection Ht as <- <-. exists [a]. split; [done|]. split; [done|].
      split; [|done]. intros [|i] a' Hi Hlen; simpl in *; lia.
Qed.

(** X20: the durations [main] records are exactly the seconds of the
    calls of [code_to_test] that returned, in the order of the calls: a
    call that raises adds no duration.  Every call but the last returned,
    and all of them when [main] ends normally.  Hence the durations are as
    many as the calls, or one fewer when the last call raised; there are
    never more calls than the repeat count; and when [main] ends normally
    there are exactly as many calls and durations as the repeat count,
    which is at least one. *)
Theorem X20_one_duration_per_returned_trial num_runs repeat pre_create
    executor_class dag_ids dagbag session :
  let r := main isoformat str_datetime sync_to_db load_executor
             default_num_runs run_job create_dagrun num_runs repeat
             pre_create executor_class dag_ids dagbag session in
  measured r = omap (recorded run_job) (trial_calls r)
  ∧ (∀ i a, trial_calls r !! i = Some a →
            (S i < length (trial_calls r))%nat →
            is_Some (recorded run_job a))
  ∧ (exit r = Returned →
     Forall (λ a, is_Some (recorded run_job a)) (trial_calls r))
  ∧ (length (measured r) ≤ length (trial_calls r) ≤ length (measured r) + 1)%nat
  ∧ (length (trial_calls r) ≤ Z.to_nat repeat)%nat
  ∧ (exit r = Returned →
     length (measured r) = Z.to_nat repeat
     ∧ length (trial_calls r) = Z.to_nat repeat
     ∧ 1 ≤ repeat).
Proof.
  intros r. unfold r, main.
  destruct (setup_dags' dagbag num_runs pre_create dag_ids
              (pause_all_dags session, [])) as [[|e] [session1 dags]];
    [|simpl; repeat split; try (lia || done); by intros i a ?].
  destruct (get_executor_under_test load_executor executor_class);
    [|simpl; repeat split; try (lia || done); by intros i a ?].
  destruct (trials' dags dag_ids (seq 0 (Z.to_nat repeat)) _)
    as [[|e] w] eqn:Ht;
    pose proof (trials_record _ _ _ _ _ _ Ht) as (new & Hn1 & Hn2 & Hn3 & Hn4);
    apply trials_accounting in Ht as (Ha & Hb & Hc & Hd);
    rewrite length_seq in *; simpl in *; subst.
  - specialize (Hd eq_refl). split; [done|]. split; [done|].
    split; [by intros _; apply Hn4|]. split; [lia|]. split; [lia|].
    unfold report. destruct (times w) eqn:Hw; [done|].
    intros _. simpl in *. lia.
  - split; [done|]. split; [done|]. split; [done|].
    split; [lia|]. split; [lia|]. done.
Qed.

(** X21: when the setup returns, the executor class loads, every call of
    the scheduling loop returns and the repeat count is at least one,
    [main] ends normally with one duration per trial. *)
Theorem X21_main_returns_when_every_trial_returns num_runs repeat pre_create
    executor_class dag_ids dagbag session acc :
  setup_dags' dagbag num_runs pre_create dag_ids (pause_all_dags session, [])
    = (Returned, acc) →
  get_executor_under_test load_executor executor_class = Returned →
  (∀ job_runner executor session0,
     fst (fst (fst (fst (run_job job_runner executor session0)))) = Returned) →
  1 ≤ repeat →
  let r := main' num_runs repeat pre_create executor_class dag_ids dagbag
             session in
  exit r = Returned ∧ length (measured r) = Z.to_nat repeat.
Proof.
  intros Hs He Hrun Hrep r.
  assert (∀ dags counts w,
            fst (trials' dags dag_ids counts w) = Returned) as Htr.
  { intros dags counts. induction counts as [|c counts IH]; intros w; [done|].
    cbn [trials]. unfold trial, timed_run.
    set (w0 := if bool_decide (c = 0%nat) then _ else w).
    specialize (Hrun (d_job_runner w0) (d_executor w0) (d_session w0)).
    destruct (run_job _ _ _) as [[[[res0 jr] ex] se] elapsed].
    simpl in Hrun. subst res0. apply IH. }
  destruct acc as [session1 dags].
  unfold r, main. rewrite Hs, He. cbv zeta.
  match goal with
  | |- context [trials' dags dag_ids ?cs ?w0] =>
      pose proof (Htr dags cs w0) as Hres;
      destruct (trials' dags dag_ids cs w0) as [res w] eqn:Ht
  end.
  simpl in Hres. subst res.
  apply trials_accounting in Ht as (_ & Hb & _ & Hd).
  specialize (Hd eq_refl). rewrite length_seq in Hd. simpl in *.
  unfold report. destruct (times w); simpl in *; [lia|].
  split; [done|lia].
Qed.

End MainProperties.

Lemma X17_setup_witness :
  Forall2 (validated (ex_dagbag (Some 10)) 1) ["d"] [ex_dag (Some 10)].
Proof.
  apply (X17_setup_validates_every_dag ex_str_datetime ex_str_datetime
           (λ _ session, session) ex_create_dagrun
           (ex_dagbag (Some 10)) 1 false ["d"]
           (pause_all_dags ex_session_no_run)
           (reset_dag (ex_dag (Some 10)) (pause_all_dags ex_session_no_run))
           [ex_dag (Some 10)]).
  reflexivity.
Defined.

Lemma X19_no_repeat_witness :
  trial_calls (ex_main (Some 10) 0) = []
  ∧ exit (ex_main (Some 10) 0) = Raised IndexError.
Proof.
  assert (0 ≤ 0) as H0 by lia.
  destruct (X19_no_repeat_ends_with_IndexError ex_str_datetime ex_str_datetime
              (λ _ session, session) (λ _, Returned) (-1) ex_run_job
              ex_create_dagrun
              1 0 false "LocalExecutor" ["d"] (ex_dagbag (Some 10))
              ex_session_no_run H0) as (H1 & _ & H3).
  split; [exact H1|exact H3].
Defined.

Lemma X20_one_duration_witness :
  measured (ex_main (Some 10) 2)
  = omap (recorded ex_run_job) (trial_calls (ex_main (Some 10) 2))
  ∧ length (measured (ex_main (Some 10) 2)) = 2%nat
  ∧ length (trial_calls (ex_main (Some 10) 2)) = 2%nat.
Proof.
  assert (exit (ex_main (Some 10) 2) = Returned) as He
    by (vm_compute; reflexivity).
  destruct (X20_one_duration_per_returned_trial ex_str_datetime
              ex_str_datetime (λ _ session, session) (λ _, Returned) (-1)
              ex_run_job ex_create_dagrun 1 2 false "LocalExecutor" ["d"]
              (ex_dagbag (Some 10)) ex_session_no_run)
    as (Hrec & _ & _ & _ & _ & H).
  destruct (H He) as (Hm & Hc & _).
  split; [exact Hrec|]. split; [exact Hm|exact Hc].
Defined.

Lemma X21_main_returns_witness :
  exit (main ex_str_datetime ex_str_datetime (λ _ session, session)
          (λ _, Returned) (-1)
          (λ job_runner executor session,
             (Returned, job_runner, executor, session, 7))
          ex_create_dagrun
          1 3 false "LocalExecutor" ["d"] (ex_dagbag (Some 10))
          ex_session_no_run)
  = Returned.
Proof.
  assert (1 ≤ 3) as Hrep by lia.
  exact (proj1
           (X21_main_returns_when_every_trial_returns ex_str_datetime
              ex_str_datetime (λ _ session, session) (λ _, Returned) (-1)
              (λ job_runner executor session,
                 (Returned, job_runner, executor, session, 7))
              ex_create_dagrun
              1 3 false "LocalExecutor" ["d"] (ex_dagbag (Some 10))
              ex_session_no_run _ eq_refl eq_refl (λ _ _ _, eq_refl) Hrep)).
Defined.
